(** * Options order placement and trading mode of the arbitrage-bot backend

    A shallow embedding of [backend/src/index.ts]: the handler of
    [POST /api/options/orders] (validation, position lookup, smart side,
    order body, the SDK / direct API / retry cascade and the replies it
    sends) and the handler of [POST /api/trading-mode] with the
    process-wide [tradingMode] variable.

    The brokerage is an arbitrary deterministic machine with a state of its
    own; every call the handler makes is logged, so that statements about
    how often and with which body an order is submitted are statements
    about that log. *)

From Stdlib Require Import String Ascii List ZArith QArith Bool Lia.
Import ListNotations.

Local Open Scope string_scope.
Local Open Scope Z_scope.

(* ===================================================================== *)
(** ** JavaScript values the handlers look at                             *)
(* ===================================================================== *)

Module JS.

(** [s.toLowerCase()] and [s.toUpperCase()] on the ASCII letters; the other
    bytes of the string are kept, which is what decides a comparison with
    an ASCII literal such as ["sell"]. *)
Definition lower_ascii (c : ascii) : ascii :=
  let n := nat_of_ascii c in
  if (Nat.leb 65 n && Nat.leb n 90)%bool then ascii_of_nat (n + 32) else c.

Definition upper_ascii (c : ascii) : ascii :=
  let n := nat_of_ascii c in
  if (Nat.leb 97 n && Nat.leb n 122)%bool then ascii_of_nat (n - 32) else c.

Fixpoint toLowerCase (s : string) : string :=
  match s with
  | EmptyString => EmptyString
  | String c s' => String (lower_ascii c) (toLowerCase s')
  end.

Fixpoint toUpperCase (s : string) : string :=
  match s with
  | EmptyString => EmptyString
  | String c s' => String (upper_ascii c) (toUpperCase s')
  end.

(** [s.includes(pat)]: [pat] occurs in [s] as a contiguous substring. *)
Fixpoint includes (s pat : string) : bool :=
  String.prefix pat s
  || match s with
     | EmptyString => false
     | String _ s' => includes s' pat
     end.

(** A parsed JSON value, as [JSON.parse] or the SDK hands it over.  An
    object lists each key once. *)
#[local] Unset Elimination Schemes.
Inductive json : Type :=
| JNull
| JBool (b : bool)
| JNum (q : Q)
| JStr (s : string)
| JArr (l : list json)
| JObj (fields : list (string * json)).
#[local] Set Elimination Schemes.

(** A value that may also be [undefined]: [None]. *)
Definition value := option json.

(** Truthiness, as [!x], [x || y] and [x && y] use it: of a string, and of
    any value. *)
Definition truthy_string (s : string) : bool := negb (s =? "")%string.

Definition truthy (v : value) : bool :=
  match v with
  | None => false
  | Some JNull => false
  | Some (JBool b) => b
  | Some (JNum q) => negb (Qeq_bool q 0)
  | Some (JStr s) => truthy_string s
  | Some (JArr _) => true
  | Some (JObj _) => true
  end.

(** What a handler throws or a promise rejects with. *)
Inductive exn : Type :=
| TypeError (what : string)
| SyntaxError (text : string)
| Rejection (reason : json).

Definition answer (A : Type) : Type := (exn + A)%type.

Fixpoint assoc (k : string) (l : list (string * json)) : value :=
  match l with
  | [] => None
  | (k', v) :: l' => if (k =? k')%string then Some v else assoc k l'
  end.

(** [o.k] for one of the keys the handler reads ([message], [error], [id],
    ...): a [TypeError] on [null] and [undefined], the member of an object,
    and [undefined] on every other value, none of which has such a
    property. *)
Definition get (o : value) (k : string) : answer value :=
  match o with
  | None | Some JNull => inl (TypeError ("Cannot read properties of null or undefined: " ++ k))
  | Some (JObj fields) => inr (assoc k fields)
  | Some _ => inr None
  end.

(** [a || b] on values. *)
Definition or_else (a b : value) : value := if truthy a then a else b.

(** [m.includes(pat)] for a truthy [m]: the substring test on a string, the
    membership test of [Array.prototype.includes] on an array, and a
    [TypeError] on the values that have no [includes]. *)
Definition strict_eq_str (pat : string) (j : json) : bool :=
  match j with
  | JStr s => (s =? pat)%string
  | _ => false
  end.

Definition includes_of (m : json) (pat : string) : answer bool :=
  match m with
  | JStr s => inr (includes s pat)
  | JArr l => inr (existsb (strict_eq_str pat) l)
  | _ => inl (TypeError "includes is not a function")
  end.

(** [v === "s"] for a string literal. *)
Definition is_string (v : value) (s : string) : bool :=
  match v with
  | Some j => strict_eq_str s j
  | None => false
  end.

(** [m && m.includes(pat)] used as a condition. *)
Definition has_text (m : value) (pat : string) : answer bool :=
  if truthy m then
    match m with
    | Some j => includes_of j pat
    | None => inr false
    end
  else inr false.

End JS.
Import JS.

(* ===================================================================== *)
(** ** Trading mode                                                       *)
(* ===================================================================== *)

Module TradingMode.

(** [let tradingMode: "paper" | "live" = "paper";] -- the annotation is
    erased at run time, so the variable holds whatever is assigned to it. *)
Definition tradingMode_init : value := Some (JStr "paper").

(** The replies of [POST /api/trading-mode]: status 400 with
    [{success: false, error}], or [{success: true, mode, message}] where
    [message] is [`Switched to ${tradingMode} trading`]. *)
Inductive mode_reply : Type :=
| ModeRejected (status : Z) (error : string)
| ModeSet (mode : value).

(** [app.post("/api/trading-mode")]: the reply and the value [tradingMode]
    has afterwards. *)
Definition post_api_trading_mode (mode : value) (tradingMode : value)
  : mode_reply * value :=
  if negb (is_string mode "paper") && negb (is_string mode "live") then
    (ModeRejected 400 "Mode must be 'paper' or 'live'", tradingMode)
  else
    let tradingMode := mode in
    (ModeSet tradingMode, tradingMode).

(** [app.get("/api/trading-mode")] *)
Definition get_api_trading_mode (tradingMode : value) : value := tradingMode.

(** The requests the process serves, as far as [tradingMode] goes: the
    assignment in [POST /api/trading-mode] is the only one in the file, every
    other route reads the variable at most. *)
Inductive request : Type :=
| PostTradingMode (mode : value)
| ReadOnlyRoute.

Definition serve (tradingMode : value) (r : request) : value :=
  match r with
  | PostTradingMode mode => snd (post_api_trading_mode mode tradingMode)
  | ReadOnlyRoute => tradingMode
  end.

Definition tradingMode_after (rs : list request) : value :=
  fold_left serve rs tradingMode_init.

Definition is_mode (v : value) : Prop :=
  v = Some (JStr "paper") \/ v = Some (JStr "live").

End TradingMode.

(* ===================================================================== *)
(** ** Numbers                                                            *)
(* ===================================================================== *)

Module Num.

(** A JavaScript number where the handler compares it with zero or sends it
    on: [NaN], or the rational a finite double stands for. *)
Inductive jsnum : Type :=
| NaN
| Num (q : Q).

(** [n > 0], [n < 0], [n <= 0], [n >= 0]: all four are false on [NaN]. *)
Definition gt0 (n : jsnum) : bool :=
  match n with NaN => false | Num q => negb (Qle_bool q 0) end.
Definition lt0 (n : jsnum) : bool :=
  match n with NaN => false | Num q => negb (Qle_bool 0 q) end.
Definition le0 (n : jsnum) : bool :=
  match n with NaN => false | Num q => Qle_bool q 0 end.
Definition ge0 (n : jsnum) : bool :=
  match n with NaN => false | Num q => Qle_bool 0 q end.

(** A field of the request body that is a string or a number.  A number is
    an integer here, one that a double holds exactly; the test scripts of
    the repository send strings. *)
Inductive strnum : Type :=
| SStr (s : string)
| SNum (z : Z).

(** [!x] is false on a non-empty string and on a number other than zero. *)
Definition truthy_strnum (x : strnum) : bool :=
  match x with
  | SStr s => truthy_string s
  | SNum z => negb (z =? 0)
  end.

Definition is_space (c : ascii) : bool :=
  let n := nat_of_ascii c in
  (Nat.leb 9 n && Nat.leb n 13)%bool || Nat.eqb n 32.

Fixpoint trimStart (s : string) : string :=
  match s with
  | EmptyString => EmptyString
  | String c s' => if is_space c then trimStart s' else s
  end.

(** The value of [c] as a digit in [radix] (10 or 16), if it is one. *)
Definition digit_in (radix : Z) (c : ascii) : option Z :=
  let n := Z.of_nat (nat_of_ascii c) in
  let d := if (48 <=? n) && (n <=? 57) then n - 48
           else if (97 <=? n) && (n <=? 102) then n - 87
           else if (65 <=? n) && (n <=? 70) then n - 55
           else radix in
  if d <? radix then Some d else None.

(** The longest prefix of digits, read in [radix]; [acc] is [None] until
    the first digit is seen. *)
Fixpoint digits (radix : Z) (acc : option Z) (s : string) : option Z :=
  match s with
  | EmptyString => acc
  | String c s' =>
      match digit_in radix c with
      | Some d => digits radix (Some (radix * match acc with Some a => a | None => 0 end + d)) s'
      | None => acc
      end
  end.

(** [parseInt(s)] for a string, with no radix argument: ASCII white space
    is skipped, then a sign, then [0x] or [0X] selects radix 16, then the
    longest run of digits is read; no digit gives [NaN]. *)
Definition parseInt_string (s : string) : jsnum :=
  let s1 := trimStart s in
  let '(sign, s2) :=
    match s1 with
    | String "-"%char r => (-1, r)
    | String "+"%char r => (1, r)
    | _ => (1, s1)
    end in
  let '(radix, s3) :=
    match s2 with
    | String "0"%char (String "x"%char r) => (16, r)
    | String "0"%char (String "X"%char r) => (16, r)
    | _ => (10, s2)
    end in
  match digits radix None s3 with
  | None => NaN
  | Some v => Num (inject_Z (sign * v))
  end.

Fixpoint leading_digit (fuel : nat) (z : Z) : Z :=
  match fuel with
  | O => z
  | S fuel' => if z <? 10 then z else leading_digit fuel' (z / 10)
  end.

(** [parseInt(x)]: the argument is turned into a string first.  An integer
    of magnitude below 10^21 prints as its digits and reads back as itself;
    from 10^21 on it prints in exponent notation ([1e+21]) and [parseInt]
    stops after the leading digit.  The result is the integer read, before
    any rounding to a double, which keeps its sign. *)
Definition parseInt (x : strnum) : jsnum :=
  match x with
  | SStr s => parseInt_string s
  | SNum z =>
      if Z.abs z <? 10 ^ 21 then Num (inject_Z z)
      else Num (inject_Z (Z.sgn z * leading_digit (Z.to_nat (Z.log2 (Z.abs z))) (Z.abs z)))
  end.

(** [parseFloat(price).toFixed(2)], kept as the price it is computed from:
    the decimal digits of a double are not modelled. *)
Inductive fixed2 : Type :=
| toFixed2_parseFloat (price : strnum).

End Num.
Import Num.

(* ===================================================================== *)
(** ** Data of the order handler                                          *)
(* ===================================================================== *)

Module Data.

(** [req.body] of [POST /api/options/orders].  A field that is missing is
    [None]; [symbol], [side] and [orderType] are strings, [quantity] and
    [price] strings or numbers.  A body with other JSON in its fields, and
    what the order routes do when [symbol] is no string, is the subject of
    [Body] further down. *)
Record order_request : Type := {
  req_symbol : option string;
  req_side : option string;
  req_quantity : option strnum;
  req_price : option strnum;
  req_orderType : option string
}.

(** A position as [alpaca.getPositions()] lists it.  [pos_qty] is the text
    of its [qty] field and [pos_qty_parsed] the number [parseFloat] reads
    from that text. *)
Record Position : Type := {
  pos_symbol : string;
  pos_qty : string;
  pos_qty_parsed : jsnum;
  pos_side : string
}.

(** [{ qty: existingPosition.qty, side: existingPosition.side }] *)
Record position_summary : Type := {
  ps_qty : string;
  ps_side : string
}.

(** The order body: [orderData], and its copies [retryOrderData] and
    [alternativeOrderData].  [limit_price] and [order_class] are keys that
    may be missing. *)
Record OrderData : Type := {
  od_symbol : string;
  od_qty : jsnum;
  od_side : string;
  od_type : string;
  od_time_in_force : string;
  od_limit_price : option fixed2;
  od_order_class : option string
}.

(** The nine fields the handler copies out of the broker's order. *)
Record order_fields : Type := {
  of_id : value;
  of_symbol : value;
  of_side : value;
  of_qty : value;
  of_type : value;
  of_status : value;
  of_limit_price : value;
  of_filled_qty : value;
  of_created_at : value
}.

(** [enhancedErrorMessage]: a value taken over as it is, or a template
    literal around [errorData.message]. *)
Inductive error_text : Type :=
| Verbatim (v : value)
| Template (before : string) (message : value) (after : string).

Record debug_info : Type := {
  di_order_data : OrderData;
  di_api_url : string;
  di_trading_mode : value;
  di_original_side : string;
  di_smart_side : string;
  di_existing_position : option position_summary
}.

(** A key of a reply that is left out, or present with [null] or with a
    summary of the position. *)
Inductive position_info_key : Type :=
| KeyMissing
| KeyPresent (v : option position_summary).

(** The replies of the handler.
    - [MissingFields]: status 400, [{success: false, error: "Missing required
      fields: symbol, side, quantity, price"}];
    - [Placed]: [{success: true, order, message, method, smart_side,
      original_side}] and, where the code writes it, [position_info];
    - [Rejected]: the status of the direct API reply with [{success: false,
      error, details, debug_info, suggestions}];
    - [InvalidResponse]: status 500, [{success: false, error: "Invalid
      response from Alpaca API", details}];
    - [Caught]: the failure reply the outermost [catch] builds from the
      value it caught ([success: false], status 500 or the one of
      [error.response], a [troubleshooting] block). *)
Inductive Response : Type :=
| MissingFields
| Placed (order : order_fields) (message : string) (method : string)
         (smart_side : string) (original_side : string)
         (position_info : position_info_key)
| Rejected (http_status : Z) (error : error_text) (details : value)
           (debug : debug_info) (suggestions : list string)
| InvalidResponse (details : string)
| Caught (error : exn).

(** What [fetch] resolves with: the status, the text of the body, and the
    value [JSON.parse] gives for that text ([None] when it throws). *)
Record HttpResponse : Type := {
  status : Z;
  text : string;
  parsed : option json
}.

(** [response.ok] *)
Definition ok (r : HttpResponse) : bool := (200 <=? status r) && (status r <=? 299).

(** Every call that leaves the process, with the answer it got, and the
    pause before a retry. *)
Inductive Event : Type :=
| GetAccount (a : answer json)
| GetPositions (a : answer (list Position))
| CreateOrder (body : OrderData) (a : answer json)
| PostOrders (apiUrl : string) (body : OrderData) (a : answer HttpResponse)
| SetTimeout (ms : Z).

(** The brokerage behind the SDK and behind [fetch]: a state and, for each
    call, the answer and the state afterwards.  [post_orders] stands for
    [fetch(`${apiUrl}/v2/orders`, {method: "POST", ...})] together with
    reading the body of its response: a body that cannot be read where the
    handler reads it is an answer [inl]. *)
Record Broker : Type := {
  World : Type;
  getAccount : World -> answer json * World;
  getPositions : World -> answer (list Position) * World;
  createOrder : OrderData -> World -> answer json * World;
  post_orders : string -> OrderData -> World -> answer HttpResponse * World
}.

End Data.
Import Data.

(* ===================================================================== *)
(** ** The handler of [POST /api/options/orders]                          *)
(* ===================================================================== *)

Module Handler.

(** How a block of the handler ends: it falls through with a value, it
    sends a reply and returns from the handler, or it throws. *)
Inductive Outcome (A : Type) : Type :=
| Normal (a : A)
| Returned (r : Response)
| Thrown (e : exn).
Arguments Normal {A} a.
Arguments Returned {A} r.
Arguments Thrown {A} e.

Section WithBroker.

Variable B : Broker.

(** A block runs against the broker's state and the log of calls made so
    far. *)
Definition M (A : Type) : Type :=
  World B -> list Event -> Outcome A * World B * list Event.

Definition ret {A} (a : A) : M A := fun w log => (Normal a, w, log).

Definition send {A} (r : Response) : M A := fun w log => (Returned r, w, log).

Definition throw {A} (e : exn) : M A := fun w log => (Thrown e, w, log).

Definition bind {A C} (m : M A) (k : A -> M C) : M C :=
  fun w log =>
    match m w log with
    | (Normal a, w', log') => k a w' log'
    | (Returned r, w', log') => (Returned r, w', log')
    | (Thrown e, w', log') => (Thrown e, w', log')
    end.

(** [try { m } catch (e) { h e }] *)
Definition try_catch {A} (m : M A) (h : exn -> M A) : M A :=
  fun w log =>
    match m w log with
    | (Thrown e, w', log') => h e w' log'
    | r => r
    end.

Definition lift {A} (a : answer A) : M A :=
  match a with
  | inl e => throw e
  | inr x => ret x
  end.

(** [await] of a call to the broker: the call is logged with its answer,
    the broker moves on, and a rejected promise throws. *)
Definition await {A} (ev : answer A -> Event) (call : World B -> answer A * World B)
  : M A :=
  fun w log =>
    let '(a, w') := call w in
    match a with
    | inl e => (Thrown e, w', (log ++ [ev a])%list)
    | inr x => (Normal x, w', (log ++ [ev a])%list)
    end.

(** [await new Promise((resolve) => setTimeout(resolve, ms))] *)
Definition sleep (ms : Z) : M unit :=
  fun w log => (Normal tt, w, (log ++ [SetTimeout ms])%list).

End WithBroker.

Arguments ret {B A} a.
Arguments send {B A} r.
Arguments throw {B A} e.
Arguments bind {B A C} m k.
Arguments try_catch {B A} m h.
Arguments lift {B A} a.
Arguments await {B A} ev call.
Arguments sleep {B} ms.

Declare Scope handler_scope.
Delimit Scope handler_scope with handler.
Notation "x <- m ;; k" := (bind m (fun x => k))
  (at level 100, m at next level, right associativity) : handler_scope.
Notation "m ;;; k" := (bind m (fun _ => k))
  (at level 100, right associativity) : handler_scope.

(** *** The pure parts *)

(** [!symbol || !side || !quantity || !price] is false: the four fields,
    each of them present and truthy. *)
Definition required_fields (req : order_request)
  : option (string * string * strnum * strnum) :=
  match req_symbol req, req_side req, req_quantity req, req_price req with
  | Some symbol, Some side, Some quantity, Some price =>
      if negb (truthy_string symbol)
         || negb (truthy_string side)
         || negb (truthy_strnum quantity)
         || negb (truthy_strnum price)
      then None
      else Some (symbol, side, quantity, price)
  | _, _, _, _ => None
  end.

(** [const { ..., orderType = "limit" } = req.body] *)
Definition orderType_of (req : order_request) : string :=
  match req_orderType req with
  | Some orderType => orderType
  | None => "limit"
  end.

(** The value [smartSide] has when [getPositions] has answered and
    [positions.find] has given [existingPosition]. *)
Definition smartSide_of (side : string) (existingPosition : option Position) : string :=
  match existingPosition with
  | Some pos =>
      if (toLowerCase side =? "sell")%string && gt0 (pos_qty_parsed pos) then
        "sell_to_close"
      else if (toLowerCase side =? "buy")%string && lt0 (pos_qty_parsed pos) then
        "buy_to_close"
      else if (toLowerCase side =? "sell")%string && le0 (pos_qty_parsed pos) then
        "sell_to_open"
      else if (toLowerCase side =? "buy")%string && ge0 (pos_qty_parsed pos) then
        "buy_to_open"
      else side
  | None =>
      if (toLowerCase side =? "buy")%string then "buy_to_open"
      else if (toLowerCase side =? "sell")%string then "sell_to_open"
      else side
  end.

(** [positions.find((pos) => pos.symbol === symbol.toUpperCase())] *)
Definition find_position (symbol : string) (positions : list Position) : option Position :=
  find (fun pos => (pos_symbol pos =? toUpperCase symbol)%string) positions.

(** [smartSide === "buy_to_open" || smartSide === "buy_to_close" ? "buy" : "sell"] *)
Definition wire_side (smartSide : string) : string :=
  if (smartSide =? "buy_to_open")%string || (smartSide =? "buy_to_close")%string
  then "buy" else "sell".

(** [orderData], with [limit_price] added for a limit order. *)
Definition orderData_of (symbol : string) (quantity price : strnum)
    (orderType smartSide : string) : OrderData :=
  {| od_symbol := toUpperCase symbol;
     od_qty := parseInt quantity;
     od_side := wire_side smartSide;
     od_type := orderType;
     od_time_in_force := "day";
     od_limit_price :=
       if (orderType =? "limit")%string then Some (toFixed2_parseFloat price) else None;
     od_order_class := None |}.

(** [retryOrderData = { ...orderData }; retryOrderData.time_in_force = "day"] *)
Definition retryOrderData_of (orderData : OrderData) : OrderData :=
  {| od_symbol := od_symbol orderData;
     od_qty := od_qty orderData;
     od_side := od_side orderData;
     od_type := od_type orderData;
     od_time_in_force := "day";
     od_limit_price := od_limit_price orderData;
     od_order_class := od_order_class orderData |}.

(** [alternativeOrderData = { ...orderData }; alternativeOrderData.order_class = "simple"] *)
Definition alternativeOrderData_of (orderData : OrderData) : OrderData :=
  {| od_symbol := od_symbol orderData;
     od_qty := od_qty orderData;
     od_side := od_side orderData;
     od_type := od_type orderData;
     od_time_in_force := od_time_in_force orderData;
     od_limit_price := od_limit_price orderData;
     od_order_class := Some "simple" |}.

(** [existingPosition ? { qty: ..., side: ... } : null] *)
Definition summary_of (existingPosition : option Position) : option position_summary :=
  match existingPosition with
  | Some pos => Some {| ps_qty := pos_qty pos; ps_side := pos_side pos |}
  | None => None
  end.

(** [{ id: order.id, symbol: order.symbol, ... }]: reading [order.id] throws
    when the order is [null] or [undefined]. *)
Definition fields_of (order : value) : answer order_fields :=
  match get order "id" with
  | inl e => inl e
  | inr id =>
      let field k := match get order k with inr v => v | inl _ => None end in
      inr {| of_id := id;
             of_symbol := field "symbol";
             of_side := field "side";
             of_qty := field "qty";
             of_type := field "type";
             of_status := field "status";
             of_limit_price := field "limit_price";
             of_filled_qty := field "filled_qty";
             of_created_at := field "created_at" |}
  end.

(** [JSON.parse(responseText)], or [{ message: responseText }] when that
    throws. *)
Definition errorData_of (response : HttpResponse) : value :=
  match parsed response with
  | Some j => Some j
  | None => Some (JObj [("message", JStr (text response))])
  end.

(** [await retryResponse.json()] *)
Definition json_of (response : HttpResponse) : answer json :=
  match parsed response with
  | Some j => inr j
  | None => inl (SyntaxError (text response))
  end.

Definition wash_trade_text : string := "potential wash trade detected".
Definition short_sell_text : string :=
  "cannot open a short sell while a long buy order is open".

Definition suggestions : list string :=
  [ "Use a margin account to allow simultaneous long/short positions";
    "Close existing positions before placing opposing orders";
    "Use 'sell_to_close' instead of 'sell_to_open' if you have long positions";
    "Use 'buy_to_close' instead of 'buy_to_open' if you have short positions" ].

Definition apiUrl_of (tradingMode : value) : string :=
  if is_string tradingMode "paper" then "https://paper-api.alpaca.markets"
  else "https://api.alpaca.markets".

(** *** The handler *)

Section Place.

Variable B : Broker.

Local Open Scope handler_scope.

(** The account check: its result is only logged, and a failure is
    swallowed. *)
Definition check_account : M B unit :=
  try_catch
    (account <- await GetAccount (getAccount B) ;;
     _ <- lift (get (Some account) "id") ;;
     ret tt)
    (fun accountError => ret tt).

(** The position check: [existingPosition] and [smartSide] after the
    [try]/[catch] around [getPositions].  When the call fails both keep what
    they were initialised with, [null] and [side]. *)
Definition check_positions (symbol side : string) : M B (option Position * string) :=
  try_catch
    (positions <- await GetPositions (getPositions B) ;;
     let existingPosition := find_position symbol positions in
     ret (existingPosition, smartSide_of side existingPosition))
    (fun positionError => ret (None, side)).

(** [existingPosition] and [smartSide] for an answer of [getPositions]. *)
Definition after_positions (symbol side : string) (a : answer (list Position))
  : option Position * string :=
  match a with
  | inr positions =>
      (find_position symbol positions, smartSide_of side (find_position symbol positions))
  | inl positionError => (None, side)
  end.

(** The [try]/[catch] inside the wash-trade branch. *)
Definition retry_after_wash_trade (apiUrl : string) (orderData : OrderData)
    (smartSide side : string) : M B unit :=
  try_catch
    (sleep 100 ;;;
     let retryOrderData := retryOrderData_of orderData in
     retryResponse <- await (PostOrders apiUrl retryOrderData)
                            (post_orders B apiUrl retryOrderData) ;;
     if ok retryResponse then
       retryOrder <- lift (json_of retryResponse) ;;
       fields <- lift (fields_of (Some retryOrder)) ;;
       send (Placed fields
               "Options order placed successfully (retry after wash trade detection)"
               "retry_after_wash_trade" smartSide side KeyMissing)
     else ret tt)
    (fun retryError => ret tt).

(** The [try]/[catch] inside the second branch on the short-sell text. *)
Definition alternative_margin_approach (apiUrl : string) (orderData : OrderData)
    (smartSide side : string) : M B unit :=
  try_catch
    (let alternativeOrderData := alternativeOrderData_of orderData in
     sleep 200 ;;;
     altResponse <- await (PostOrders apiUrl alternativeOrderData)
                          (post_orders B apiUrl alternativeOrderData) ;;
     if ok altResponse then
       altOrder <- lift (json_of altResponse) ;;
       fields <- lift (fields_of (Some altOrder)) ;;
       send (Placed fields
               "Options order placed successfully (alternative approach for margin)"
               "alternative_margin_approach" smartSide side KeyMissing)
     else ret tt)
    (fun altError => ret tt).

(** The [if] / [else if] / [else if] on [errorData.message]: the retries it
    makes and the text [enhancedErrorMessage] ends with. *)
Definition classify_rejection (apiUrl : string) (orderData : OrderData)
    (smartSide side : string) (message : value) (enhancedErrorMessage : error_text)
  : M B error_text :=
  is_short_sell <- lift (has_text message short_sell_text) ;;
  if is_short_sell then
    ret (Template "Broker restriction: " message
           ". This occurs because you have existing long positions and are trying to create a short position. Consider using a margin account or closing existing positions first.")
  else
    is_wash_trade <- lift (has_text message wash_trade_text) ;;
    if is_wash_trade then
      retry_after_wash_trade apiUrl orderData smartSide side ;;;
      ret (Template "Wash trade detection triggered: " message
             ". For day trading, this should not apply. Trying alternative approach...")
    else
      is_short_sell_again <- lift (has_text message short_sell_text) ;;
      if is_short_sell_again then
        alternative_margin_approach apiUrl orderData smartSide side ;;;
        ret (Template "Position restriction: " message
               ". For day trading with margin, this should not apply. Trying alternative approach...")
      else ret enhancedErrorMessage.

(** Method 2, the body of [catch (sdkError)]: the direct call to the REST
    API and what follows from its response. *)
Definition direct_api (tradingMode : value) (orderData : OrderData)
    (smartSide side : string) (existingPosition : option Position) : M B Empty_set :=
  let apiUrl := apiUrl_of tradingMode in
  response <- await (PostOrders apiUrl orderData) (post_orders B apiUrl orderData) ;;
  if negb (ok response) then
    let errorData := errorData_of response in
    message <- lift (get errorData "message") ;;
    error <- lift (get errorData "error") ;;
    let enhancedErrorMessage :=
      Verbatim (or_else (or_else message error) (Some (JStr "Options order failed"))) in
    enhancedErrorMessage <-
      classify_rejection apiUrl orderData smartSide side message enhancedErrorMessage ;;
    send (Rejected (status response) enhancedErrorMessage errorData
            {| di_order_data := orderData;
               di_api_url := apiUrl;
               di_trading_mode := tradingMode;
               di_original_side := side;
               di_smart_side := smartSide;
               di_existing_position := summary_of existingPosition |}
            suggestions)
  else
    match parsed response with
    | None => send (InvalidResponse (text response))
    | Some order =>
        fields <- lift (fields_of (Some order)) ;;
        send (Placed fields "Options order placed successfully via direct API"
                "direct_api" smartSide side (KeyPresent (summary_of existingPosition)))
    end.

(** Method 1, the SDK, and Method 2 in its [catch]. *)
Definition submit_order (tradingMode : value) (orderData : OrderData)
    (smartSide side : string) (existingPosition : option Position) : M B Empty_set :=
  try_catch
    (order <- await (CreateOrder orderData) (createOrder B orderData) ;;
     fields <- lift (fields_of (Some order)) ;;
     send (Placed fields "Options order placed successfully via SDK"
             "alpaca_sdk" smartSide side (KeyPresent (summary_of existingPosition))))
    (fun sdkError => direct_api tradingMode orderData smartSide side existingPosition).

(** The body of the outer [try]. *)
Definition place_order (tradingMode : value) (req : order_request) : M B Empty_set :=
  match required_fields req with
  | None => send MissingFields
  | Some (symbol, side, quantity, price) =>
      let orderType := orderType_of req in
      check_account ;;;
      found <- check_positions symbol side ;;
      let existingPosition := fst found in
      let smartSide := snd found in
      let orderData := orderData_of symbol quantity price orderType smartSide in
      submit_order tradingMode orderData smartSide side existingPosition
  end.

(** How a run ends: with the reply sent, or in the outer [catch].  The
    [catch] makes no call.  When the message it takes from
    [error.response.data] is no string, [errorMessage.toLowerCase()] throws
    inside the [catch] and no reply is sent at all; [Caught] stands for
    that end of a run as well. *)
Definition finish (r : Outcome Empty_set * World B * list Event)
  : Response * World B * list Event :=
  match r with
  | (Returned r, w', log) => (r, w', log)
  | (Thrown e, w', log) => (Caught e, w', log)
  | (Normal a, _, _) => match a with end
  end.

(** [app.post("/api/options/orders")]: the reply, the broker afterwards and
    the log of the calls made, for a request served while [tradingMode] has
    the given value.  Whatever the body throws is answered by the outer
    [catch]. *)
Definition post_api_options_orders (tradingMode : value) (req : order_request)
    (w : World B) : Response * World B * list Event :=
  finish (place_order tradingMode req w []).

Definition reply_of (tradingMode : value) (req : order_request) (w : World B) : Response :=
  fst (fst (post_api_options_orders tradingMode req w)).

Definition calls_of (tradingMode : value) (req : order_request) (w : World B) : list Event :=
  snd (post_api_options_orders tradingMode req w).

End Place.

(** *** Reading the log *)

(** The order bodies submitted, in order: through the SDK or through
    [fetch]. *)
Definition submitted (e : Event) : option OrderData :=
  match e with
  | CreateOrder body _ => Some body
  | PostOrders _ body _ => Some body
  | _ => None
  end.

Fixpoint submissions (log : list Event) : list OrderData :=
  match log with
  | [] => []
  | e :: log' =>
      match submitted e with
      | Some body => body :: submissions log'
      | None => submissions log'
      end
  end.

(** [success: true] *)
Definition success (r : Response) : bool :=
  match r with
  | Placed _ _ _ _ _ _ => true
  | _ => false
  end.

Definition method_of (r : Response) : option string :=
  match r with
  | Placed _ _ method _ _ _ => Some method
  | _ => None
  end.

Definition smart_side_of (r : Response) : option string :=
  match r with
  | Placed _ _ _ smart_side _ _ => Some smart_side
  | Rejected _ _ _ debug _ => Some (di_smart_side debug)
  | _ => None
  end.

Definition position_info_of (r : Response) : position_info_key :=
  match r with
  | Placed _ _ _ _ _ position_info => position_info
  | _ => KeyMissing
  end.

End Handler.
Import Handler.

(* ===================================================================== *)
(** ** A scripted broker, for runs on concrete inputs                     *)
(* ===================================================================== *)

Module Scripted.

(** The answers the broker is going to give: one for each of [getAccount],
    [getPositions] and [createOrder], and a list for the successive
    [fetch] calls. *)
Record Script : Type := {
  account : answer json;
  positions : answer (list Position);
  sdk : answer json;
  http : list (answer HttpResponse)
}.

Definition next_http (w : Script) : answer HttpResponse * Script :=
  match http w with
  | [] => (inl (Rejection (JStr "fetch failed")), w)
  | r :: rest =>
      (r, {| account := account w; positions := positions w; sdk := sdk w; http := rest |})
  end.

Definition broker : Broker :=
  {| World := Script;
     getAccount := fun w => (account w, w);
     getPositions := fun w => (positions w, w);
     createOrder := fun _ w => (sdk w, w);
     post_orders := fun _ _ w => next_http w |}.

(** The request of the test scripts: one contract at 1.44. *)
Definition one_contract (side : string) : order_request :=
  {| req_symbol := Some "MSTR250725P00150000";
     req_side := Some side;
     req_quantity := Some (SStr "1");
     req_price := Some (SStr "1.44");
     req_orderType := Some "limit" |}.

(** A rejection as the broker words it: [{"code": 40310000, "message": ...}].
    The text of a sample body is written without its quotes; the handler
    reads the text only when it does not parse. *)
Definition rejection (code : Z) (message : string) : HttpResponse :=
  {| status := code;
     text := "{code: 40310000, message: " ++ message ++ "}";
     parsed := Some (JObj [("code", JNum (40310000 # 1)); ("message", JStr message)]) |}.

Definition accepted (id : string) : json :=
  JObj [("id", JStr id); ("status", JStr "accepted")].

Definition accepted_response (id : string) : HttpResponse :=
  {| status := 200;
     text := "{id: " ++ id ++ ", status: accepted}";
     parsed := Some (accepted id) |}.

Definition sdk_error (message : string) : exn :=
  Rejection (JObj [("message", JStr message)]).

Definition paper : value := Some (JStr "paper").

Definition long_one : Position :=
  {| pos_symbol := "MSTR250725P00150000"; pos_qty := "1";
     pos_qty_parsed := Num 1; pos_side := "long" |}.

Definition short_two : Position :=
  {| pos_symbol := "MSTR250725P00150000"; pos_qty := "-2";
     pos_qty_parsed := Num (-2 # 1); pos_side := "short" |}.

Definition wash_trade_message : string :=
  "potential wash trade detected, use complex orders".

Definition short_sell_message : string :=
  "cannot open a short sell while a long buy order is open".

(** The SDK and the direct API both reject for a wash trade, and so does
    the retry. *)
Definition wash_trade_throughout : Script :=
  {| account := inr (JObj [("id", JStr "acct")]);
     positions := inr [];
     sdk := inl (sdk_error wash_trade_message);
     http := [inr (rejection 403 wash_trade_message);
              inr (rejection 403 wash_trade_message)] |}.

(** The SDK and the direct API reject for a wash trade, the retry is
    accepted. *)
Definition wash_trade_then_accepted : Script :=
  {| account := inr (JObj [("id", JStr "acct")]);
     positions := inr [];
     sdk := inl (sdk_error wash_trade_message);
     http := [inr (rejection 403 wash_trade_message);
              inr (accepted_response "904837e3")] |}.

(** The SDK rejects for a wash trade, the direct API accepts. *)
Definition wash_trade_then_direct : Script :=
  {| account := inr (JObj [("id", JStr "acct")]);
     positions := inr [];
     sdk := inl (sdk_error wash_trade_message);
     http := [inr (accepted_response "904837e3")] |}.

Definition both_texts_message : string :=
  "cannot open a short sell while a long buy order is open; potential wash trade detected".

(** The direct API rejects with a message that holds both texts. *)
Definition both_texts : Script :=
  {| account := inr (JObj [("id", JStr "acct")]);
     positions := inr [];
     sdk := inl (sdk_error "request failed");
     http := [inr (rejection 403 both_texts_message);
              inr (accepted_response "904837e3")] |}.

(** The direct API rejects a sell for the open long buy order. *)
Definition short_sell_conflict : Script :=
  {| account := inr (JObj [("id", JStr "acct")]);
     positions := inr [];
     sdk := inl (sdk_error short_sell_message);
     http := [inr (rejection 403 short_sell_message);
              inr (accepted_response "904837e3")] |}.

(** The SDK rejects with a message of neither kind, the direct API
    accepts. *)
Definition not_authorized_then_direct : Script :=
  {| account := inr (JObj [("id", JStr "acct")]);
     positions := inr [];
     sdk := inl (sdk_error "account is not authorized to trade options");
     http := [inr (accepted_response "904837e3")] |}.

(** The SDK and the direct API reject with a message of neither kind. *)
Definition not_authorized : Script :=
  {| account := inr (JObj [("id", JStr "acct")]);
     positions := inr [];
     sdk := inl (sdk_error "account is not authorized to trade options");
     http := [inr (rejection 403 "account is not authorized to trade options");
              inr (accepted_response "904837e3")] |}.

(** [getPositions] fails; the SDK accepts. *)
Definition positions_unavailable : Script :=
  {| account := inr (JObj [("id", JStr "acct")]);
     positions := inl (sdk_error "connect ETIMEDOUT");
     sdk := inr (accepted "904837e3");
     http := [] |}.

(** Everything answers; the SDK accepts. *)
Definition all_well : Script :=
  {| account := inr (JObj [("id", JStr "acct")]);
     positions := inr [long_one];
     sdk := inr (accepted "904837e3");
     http := [] |}.

(** A request for minus five contracts. *)
Definition minus_five : order_request :=
  {| req_symbol := Some "MSTR250725P00150000";
     req_side := Some "buy";
     req_quantity := Some (SStr "-5");
     req_price := Some (SStr "1.44");
     req_orderType := Some "limit" |}.

(** A request without a price. *)
Definition no_price : order_request :=
  {| req_symbol := Some "MSTR250725P00150000";
     req_side := Some "buy";
     req_quantity := Some (SStr "1");
     req_price := None;
     req_orderType := Some "limit" |}.

(** The order body of [one_contract side] once [smartSide] is known. *)
Definition body_of (smartSide : string) : OrderData :=
  orderData_of "MSTR250725P00150000" (SStr "1") (SStr "1.44") "limit" smartSide.

Definition paper_url : string := "https://paper-api.alpaca.markets".

End Scripted.

(* ===================================================================== *)
(** ** The side resolver as the specification words it                    *)
(* ===================================================================== *)

Module Spec.

(** The requested side: [buy], [sell], or one of the four qualified
    forms. *)
Inductive Side : Type :=
| buy
| sell
| buy_to_open
| buy_to_close
| sell_to_open
| sell_to_close.

Definition name (s : Side) : string :=
  match s with
  | buy => "buy"
  | sell => "sell"
  | buy_to_open => "buy_to_open"
  | buy_to_close => "buy_to_close"
  | sell_to_open => "sell_to_open"
  | sell_to_close => "sell_to_close"
  end.

Definition positive (positionQuantity : option Q) : bool :=
  match positionQuantity with
  | Some q => negb (Qle_bool q 0)
  | None => false
  end.

Definition negative (positionQuantity : option Q) : bool :=
  match positionQuantity with
  | Some q => negb (Qle_bool 0 q)
  | None => false
  end.

(** The decision table of the specification, in its priority order; a
    position that is absent is [None]. *)
Definition resolve (requestedSide : Side) (positionQuantity : option Q) : Side :=
  match requestedSide with
  | buy_to_open | buy_to_close | sell_to_open | sell_to_close => requestedSide
  | sell => if positive positionQuantity then sell_to_close else sell_to_open
  | buy => if negative positionQuantity then buy_to_close else buy_to_open
  end.

(** [existingPosition] holds the quantity the table is read at: none when
    there is no position, and the number its [qty] parses to otherwise. *)
Definition quantity_is (existingPosition : option Position) (positionQuantity : option Q)
  : Prop :=
  match existingPosition, positionQuantity with
  | None, None => True
  | Some pos, Some q => pos_qty_parsed pos = Num q
  | _, _ => False
  end.

End Spec.

(* ===================================================================== *)
(** ** The other routes of [backend/src/index.ts]                         *)
(* ===================================================================== *)

From Stdlib Require Import Sorting.Sorted Sorting.Permutation.

(** *** Option symbols *)

Module OptionSymbol.

Definition is_upper (c : ascii) : bool :=
  let n := nat_of_ascii c in (Nat.leb 65 n && Nat.leb n 90)%bool.

Definition is_digit (c : ascii) : bool :=
  let n := nat_of_ascii c in (Nat.leb 48 n && Nat.leb n 57)%bool.

(** What is left of [s] after its leading capital letters. *)
Fixpoint skip_upper (s : string) : string :=
  match s with
  | EmptyString => EmptyString
  | String c s' => if is_upper c then skip_upper s' else s
  end.

(** What is left of [s] after exactly [n] digits, if it starts with that
    many. *)
Fixpoint take_digits (n : nat) (s : string) : option string :=
  match n with
  | O => Some s
  | S n' =>
      match s with
      | EmptyString => None
      | String c s' => if is_digit c then take_digits n' s' else None
      end
  end.

(** [/^[A-Z]+\d{6}[CP]\d{8}$/.test(s)].  The run of capital letters is
    taken whole: a shorter run would leave a letter where the first digit
    has to stand. *)
Definition matches_option_pattern (s : string) : bool :=
  match s with
  | EmptyString => false
  | String c s' =>
      is_upper c
      && match take_digits 6 (skip_upper s') with
         | Some (String t rest) =>
             ((t =? "C")%char || (t =? "P")%char)
             && match take_digits 8 rest with
                | Some EmptyString => true
                | _ => false
                end
         | _ => false
         end
  end.

(** [typeof symbol === "string" && symbol.length > 10 && /.../.test(symbol)]
    for a symbol that is a string. *)
Definition isOptionsSymbol (symbol : string) : bool :=
  Nat.ltb 10 (String.length symbol) && matches_option_pattern symbol.

(** The strings the pattern describes: capital letters, at least one, then
    six digits, then [C] or [P], then eight digits. *)
Definition all_upper (s : string) : bool := forallb is_upper (list_ascii_of_string s).
Definition all_digits (s : string) : bool := forallb is_digit (list_ascii_of_string s).

Definition option_symbol_shape (s : string) : Prop :=
  exists (root date strike : string) (kind : ascii),
    s = (root ++ date ++ String kind strike)%string
    /\ root <> EmptyString /\ all_upper root = true
    /\ String.length date = 6%nat /\ all_digits date = true
    /\ (kind = "C"%char \/ kind = "P"%char)
    /\ String.length strike = 8%nat /\ all_digits strike = true.

End OptionSymbol.

(** *** [POST /api/orders] *)

Module StockOrder.

Import OptionSymbol.

(** [details] of a failure reply: the payload of the broker, or
    [error instanceof Error ? error.message : "Unknown error"] for the value
    that was caught. *)
Inductive failure_details : Type :=
| DetailsData (errorData : json)
| DetailsMessage (error : exn).

(** The replies of the handler.
    - [OrderMissingFields]: status 400, "Missing required fields: symbol,
      side, quantity, price";
    - [OrderIsOption]: status 400, "Options orders should use the
      /api/options/orders endpoint", with the symbol in [details];
    - [OrderBadSide]: status 400, "Side must be 'buy' or 'sell'";
    - [OrderPlaced]: [{success: true, order, message}];
    - [OrderFailed]: [{success: false, error, details}] under [status]. *)
Inductive order_reply : Type :=
| OrderMissingFields
| OrderIsOption (symbol : string)
| OrderBadSide
| OrderPlaced (order : order_fields)
| OrderFailed (status : value) (error : value) (details : failure_details).

(** [o?.k] for a value [o] that is there. *)
Definition optional (o : json) (k : string) : value :=
  match o with
  | JObj fields => assoc k fields
  | _ => None
  end.

(** [error.response] when
    [error && typeof error === "object" && "response" in error]: the thrown
    value is read through its properties. *)
Definition response_in (error : exn) : option json :=
  match error with
  | Rejection (JObj fields) => assoc "response" fields
  | _ => None
  end.

(** The three-way choice of [errorMessage] inside [if (errorData)]. *)
Definition errorMessage_of (errorData : json) : value :=
  if truthy (optional errorData "message") then optional errorData "message"
  else if truthy (optional errorData "reject_reason") then optional errorData "reject_reason"
  else if truthy (optional errorData "error") then optional errorData "error"
  else Some (JStr "Failed to place order").

(** The [catch] of the handler. *)
Definition order_failure (error : exn) : order_reply :=
  match response_in error with
  | Some response =>
      let status := or_else (optional response "status") (Some (JNum (500 # 1))) in
      let errorData := optional response "data" in
      match errorData with
      | Some data =>
          if truthy errorData
          then OrderFailed status (errorMessage_of data) (DetailsData data)
          else OrderFailed status (Some (JStr "Failed to place order")) (DetailsMessage error)
      | None =>
          OrderFailed status (Some (JStr "Failed to place order")) (DetailsMessage error)
      end
  | None =>
      OrderFailed (Some (JNum (500 # 1))) (Some (JStr "Failed to place order"))
        (DetailsMessage error)
  end.

(** [orderData] of this route: the side goes out as it came in. *)
Definition stock_orderData (symbol : string) (quantity price : strnum)
    (orderType side : string) : OrderData :=
  {| od_symbol := toUpperCase symbol;
     od_qty := parseInt quantity;
     od_side := side;
     od_type := orderType;
     od_time_in_force := "day";
     od_limit_price :=
       if (orderType =? "limit")%string then Some (toFixed2_parseFloat price) else None;
     od_order_class := None |}.

(** [side !== "buy" && side !== "sell"] *)
Definition bad_side (side : string) : bool :=
  negb (side =? "buy")%string && negb (side =? "sell")%string.

(** [app.post("/api/orders")]: the reply, the broker afterwards and the log
    of the calls made. *)
Definition post_api_orders (B : Broker) (req : order_request) (w : World B)
  : order_reply * World B * list Event :=
  match required_fields req with
  | None => (OrderMissingFields, w, [])
  | Some (symbol, side, quantity, price) =>
      if isOptionsSymbol symbol then (OrderIsOption symbol, w, [])
      else if bad_side side then (OrderBadSide, w, [])
      else
        let orderData := stock_orderData symbol quantity price (orderType_of req) side in
        let '(a, w') := createOrder B orderData w in
        match a with
        | inl error => (order_failure error, w', [CreateOrder orderData a])
        | inr order =>
            match fields_of (Some order) with
            | inl error => (order_failure error, w', [CreateOrder orderData a])
            | inr fields => (OrderPlaced fields, w', [CreateOrder orderData a])
            end
        end
  end.

Definition is_400 (r : order_reply) : bool :=
  match r with
  | OrderMissingFields | OrderIsOption _ | OrderBadSide => true
  | _ => false
  end.

End StockOrder.

(** *** The order routes on a body of any JSON *)

Module Body.

Import OptionSymbol StockOrder.
Local Open Scope handler_scope.

(** [req.body] of the two order routes as [express.json()] hands it over:
    each of the five fields is any JSON value, or is missing. *)
Record body : Type := {
  b_symbol : value;
  b_side : value;
  b_quantity : value;
  b_price : value;
  b_orderType : value
}.







Section Routes.

Variable B : Broker.




End Routes.


End Body.

(** *** The broker behind the remaining routes *)

Module Alpaca.

(** A contract of [/v2/options/contracts] as the handlers read it:
    [strike] is the number [parseFloat] reads from [strike_price], and
    [open_interest] is missing when the broker sends none. *)
Record Contract : Type := {
  ct_symbol : string;
  ct_underlying_symbol : string;
  ct_strike : Q;
  ct_expiration_date : string;
  ct_type : string;
  ct_open_interest : option strnum
}.

(** The parsed body of the contracts response: [null], an object without
    [option_contracts] (or with a falsy one), or an object with the array. *)
Inductive contracts_data : Type :=
| DataNull
| DataWithout
| DataWith (option_contracts : list Contract).

(** What [fetch] resolves with on the contracts endpoint; [resp_data] is
    [None] when [response.json()] throws. *)
Record contracts_response : Type := {
  resp_status : Z;
  resp_statusText : string;
  resp_data : option contracts_data
}.

Definition resp_ok (r : contracts_response) : bool :=
  (200 <=? resp_status r) && (resp_status r <=? 299).

(** What [new AlpacaApi({...})] is given that differs from one client to
    the other: the [paper] flag. *)
Record client : Type := { cfg_paper : bool }.

(** [getAlpacaApi()], by the trading mode at the time of the call. *)
Definition getAlpacaApi (tradingMode : value) : client :=
  {| cfg_paper := is_string tradingMode "paper" |}.

(** [getLiveMarketDataApi()] *)
Definition getLiveMarketDataApi : client := {| cfg_paper := false |}.

(** The argument of [alpaca.getOrders]; [until], [after], [direction] and
    [nested] are the same in every call. *)
Record orders_query : Type := {
  q_status : string;
  q_limit : Z;
  q_symbols : option (list string)
}.

(** The calls of these routes, each with the answer it got. *)
Inductive Call : Type :=
| GetPosition (symbol : string) (a : answer json)
| ListPositions (a : answer (list json))
| GetOrders (query : orders_query) (a : answer (list json))
| CancelOrder (id : value) (a : answer unit)
| GetLatestQuote (alpaca : client) (symbol : string) (a : answer json)
| FetchContracts (url : string) (a : answer contracts_response).

Record Api : Type := {
  State : Type;
  getPosition : string -> State -> answer json * State;
  getPositions : State -> answer (list json) * State;
  getOrders : orders_query -> State -> answer (list json) * State;
  cancelOrder : value -> State -> answer unit * State;
  getLatestQuote : client -> string -> State -> answer json * State;
  fetch_contracts : string -> State -> answer contracts_response * State
}.

Section Route.

Variable api : Api.

(** A block of a handler: it runs against the broker and the log, and ends
    with a value or with something thrown. *)
Definition Route (A : Type) : Type :=
  State api -> list Call -> answer A * State api * list Call.

Definition unit_ {A} (a : A) : Route A := fun s log => (inr a, s, log).

Definition raise {A} (e : exn) : Route A := fun s log => (inl e, s, log).

Definition and_then {A C} (m : Route A) (k : A -> Route C) : Route C :=
  fun s log =>
    match m s log with
    | (inr a, s', log') => k a s' log'
    | (inl e, s', log') => (inl e, s', log')
    end.

(** [try { m } catch (e) { h e }] *)
Definition attempt {A} (m : Route A) (h : exn -> Route A) : Route A :=
  fun s log =>
    match m s log with
    | (inl e, s', log') => h e s' log'
    | r => r
    end.

Definition of_answer {A} (a : answer A) : Route A :=
  match a with
  | inl e => raise e
  | inr x => unit_ x
  end.

(** [await] of a call: logged with its answer. *)
Definition request {A} (ev : answer A -> Call) (call : State api -> answer A * State api)
  : Route A :=
  fun s log =>
    let '(a, s') := call s in
    (a, s', (log ++ [ev a])%list).

End Route.

Arguments unit_ {api A} a.
Arguments raise {api A} e.
Arguments and_then {api A C} m k.
Arguments attempt {api A} m h.
Arguments of_answer {api A} a.
Arguments request {api A} ev call.

Declare Scope route_scope.
Delimit Scope route_scope with route.
Notation "x <~ m ;; k" := (and_then m (fun x => k))
  (at level 100, m at next level, right associativity) : route_scope.

End Alpaca.

(** *** [GET /api/positions] *)

Module Positions.

Import OptionSymbol Alpaca.
Local Open Scope route_scope.

(** The ten fields copied out of a position. *)
Record position_fields : Type := {
  pf_symbol : value;
  pf_qty : value;
  pf_side : value;
  pf_market_value : value;
  pf_cost_basis : value;
  pf_unrealized_pl : value;
  pf_unrealized_plpc : value;
  pf_current_price : value;
  pf_avg_entry_price : value;
  pf_change_today : value
}.

(** [{ symbol: position.symbol, ... }]: throws on [null]. *)
Definition position_fields_of (position : json) : answer position_fields :=
  match get (Some position) "symbol" with
  | inl e => inl e
  | inr symbol =>
      let field k := match get (Some position) k with inr v => v | inl _ => None end in
      inr {| pf_symbol := symbol;
             pf_qty := field "qty";
             pf_side := field "side";
             pf_market_value := field "market_value";
             pf_cost_basis := field "cost_basis";
             pf_unrealized_pl := field "unrealized_pl";
             pf_unrealized_plpc := field "unrealized_plpc";
             pf_current_price := field "current_price";
             pf_avg_entry_price := field "avg_entry_price";
             pf_change_today := field "change_today" |}
  end.

(** [positions.map((pos) => ({ ... }))]: the first [null] throws. *)
Fixpoint map_positions (positions : list json) : answer (list position_fields) :=
  match positions with
  | [] => inr []
  | pos :: rest =>
      match position_fields_of pos with
      | inl e => inl e
      | inr fields =>
          match map_positions rest with
          | inl e => inl e
          | inr others => inr (fields :: others)
          end
      end
  end.

(** The replies.
    - [OptionsHandledSeparately]: [{success: true, position: null, message:
      "Options positions are handled separately"}];
    - [OnePosition]: [{success: true, position}], [null] when [None];
    - [AllPositions]: [{success: true, positions}];
    - [PositionsFailed]: status 500, "Failed to fetch positions". *)
Inductive positions_reply : Type :=
| OptionsHandledSeparately
| OnePosition (position : option position_fields)
| AllPositions (positions : list position_fields)
| PositionsFailed (error : exn).

Section Handler.

Variable api : Api.

(** The body of the [try]; [symbol] is [req.query.symbol], a string when it
    is there. *)
Definition positions_body (symbol : option string) : Route api positions_reply :=
  match symbol with
  | Some symbol =>
      if truthy_string symbol then
        if isOptionsSymbol symbol then unit_ OptionsHandledSeparately
        else
          attempt
            (position <~ request (GetPosition symbol) (getPosition api symbol) ;;
             fields <~ of_answer (position_fields_of position) ;;
             unit_ (OnePosition (Some fields)))
            (fun error => unit_ (OnePosition None))
      else
        positions <~ request ListPositions (getPositions api) ;;
        fields <~ of_answer (map_positions positions) ;;
        unit_ (AllPositions fields)
  | None =>
      positions <~ request ListPositions (getPositions api) ;;
      fields <~ of_answer (map_positions positions) ;;
      unit_ (AllPositions fields)
  end.

(** [app.get("/api/positions")] *)
Definition get_api_positions (symbol : option string) (s : State api)
  : positions_reply * State api * list Call :=
  match positions_body symbol s [] with
  | (inr reply, s', log) => (reply, s', log)
  | (inl error, s', log) => (PositionsFailed error, s', log)
  end.

End Handler.

End Positions.

(** *** [DELETE /api/orders] *)

Module CancelAll.

Import Alpaca.
Local Open Scope route_scope.

(** An entry of [cancelResults]. *)
Record cancel_result : Type := {
  cr_id : value;
  cr_symbol : value;
  cr_status : string
}.

(** The replies: [{success: true, message: `Cancelled ${count} orders`,
    cancelled_orders}], or status 500 with "Failed to cancel orders". *)
Inductive cancel_reply : Type :=
| CancelledOrders (count : nat) (cancelled_orders : list cancel_result)
| CancelFailed (error : exn).

(** [{ id: order.id, symbol: order.symbol, status }] *)
Definition result_of (order : json) (status : string) : answer cancel_result :=
  match get (Some order) "id" with
  | inl e => inl e
  | inr id =>
      match get (Some order) "symbol" with
      | inl e => inl e
      | inr symbol => inr {| cr_id := id; cr_symbol := symbol; cr_status := status |}
      end
  end.

Definition open_orders : orders_query :=
  {| q_status := "open"; q_limit := 50; q_symbols := None |}.

(** [cancelResults.filter((r) => r.status === "cancelled").length] *)
Definition cancelled_count (cancelResults : list cancel_result) : nat :=
  length (filter (fun r => (cr_status r =? "cancelled")%string) cancelResults).

Section Handler.

Variable api : Api.

(** The body of the loop for one order: the [try] pushes a result when the
    cancel went through, the [catch] pushes one when it did not. *)
Definition cancel_one (order : json) : Route api cancel_result :=
  attempt
    (id <~ of_answer (get (Some order) "id") ;;
     _ <~ request (CancelOrder id) (cancelOrder api id) ;;
     of_answer (result_of order "cancelled"))
    (fun error => of_answer (result_of order "failed_to_cancel")).

(** [for (const order of orders) { ... }], with [cancelResults] so far. *)
Fixpoint cancel_each (orders : list json) (cancelResults : list cancel_result)
  : Route api (list cancel_result) :=
  match orders with
  | [] => unit_ cancelResults
  | order :: rest =>
      r <~ cancel_one order ;;
      cancel_each rest (cancelResults ++ [r])%list
  end.

Definition cancel_all_body : Route api cancel_reply :=
  orders <~ request (GetOrders open_orders) (getOrders api open_orders) ;;
  cancelResults <~ cancel_each orders [] ;;
  unit_ (CancelledOrders (cancelled_count cancelResults) cancelResults).

(** [app.delete("/api/orders")] *)
Definition delete_api_orders (s : State api) : cancel_reply * State api * list Call :=
  match cancel_all_body s [] with
  | (inr reply, s', log) => (reply, s', log)
  | (inl error, s', log) => (CancelFailed error, s', log)
  end.

End Handler.

(** The cancel calls of a log: the ids asked for, and whether each went
    through. *)
Fixpoint cancel_calls (log : list Call) : list (value * bool) :=
  match log with
  | [] => []
  | CancelOrder id a :: log' =>
      (id, match a with inr _ => true | inl _ => false end) :: cancel_calls log'
  | _ :: log' => cancel_calls log'
  end.

(** The [status] of a result, by how the cancel call went. *)
Definition status_of (went_through : bool) : string :=
  if went_through then "cancelled" else "failed_to_cancel".

(** [order.id] of an order that is not [null]. *)
Definition id_of (order : json) : value :=
  match get (Some order) "id" with
  | inr id => id
  | inl _ => None
  end.

End CancelAll.

(** *** [GET /api/options/expirations/:symbol] *)

Module Expirations.

Import Alpaca.
Local Open Scope route_scope.

(** [expirations.add(date)] on a [Set] of strings, kept in insertion
    order. *)
Definition add (expirations : list string) (date : string) : list string :=
  if existsb (String.eqb date) expirations then expirations
  else (expirations ++ [date])%list.

(** [Array.from(expirations).sort()]: the default order of [sort] on
    strings, code unit by code unit.  The strings are compared byte by
    byte here, which is the same order as long as no character lies
    outside the Basic Multilingual Plane. *)
Fixpoint insert (date : string) (sorted : list string) : list string :=
  match sorted with
  | [] => [date]
  | d :: rest => if String.leb date d then date :: sorted else d :: insert date rest
  end.

Definition sort (dates : list string) : list string := fold_right insert [] dates.

(** The order of that [sort]: strictly before, and before or equal. *)
Definition before (a b : string) : Prop := String.ltb a b = true.
Definition not_after (a b : string) : Prop := String.leb a b = true.

(** The dates of the contracts, each once, sorted. *)
Definition sortedExpirations (option_contracts : list Contract) : list string :=
  sort (fold_left add (map ct_expiration_date option_contracts) []).

(** The replies: the status of the broker with "Failed to fetch options
    contracts from Alpaca" and [`HTTP ${status}: ${statusText}`];
    [{success: true, symbol, expirations}]; or status 500 with "Failed to
    fetch options expirations". *)
Inductive expirations_reply : Type :=
| ExpirationsUpstream (status : Z) (statusText : string)
| ExpirationsOf (symbol : string) (expirations : list string)
| ExpirationsFailed (error : exn).

Definition contracts_url (symbol : string) (limit : string) : string :=
  "https://paper-api.alpaca.markets/v2/options/contracts?underlying_symbols="
  ++ toUpperCase symbol ++ "&limit=" ++ limit.

(** [await response.json()] and then [alpacaData.option_contracts]: the
    array when it is there and truthy. *)
Definition option_contracts_of (response : contracts_response)
  : answer (option (list Contract)) :=
  match resp_data response with
  | None => inl (SyntaxError "Unexpected token in JSON")
  | Some DataNull => inl (TypeError "Cannot read properties of null: option_contracts")
  | Some DataWithout => inr None
  | Some (DataWith option_contracts) => inr (Some option_contracts)
  end.

Section Handler.

Variable api : Api.

Definition expirations_body (symbol : string) : Route api expirations_reply :=
  response <~ request (FetchContracts (contracts_url symbol "100"))
                      (fetch_contracts api (contracts_url symbol "100")) ;;
  if negb (resp_ok response) then
    unit_ (ExpirationsUpstream (resp_status response) (resp_statusText response))
  else
    option_contracts <~ of_answer (option_contracts_of response) ;;
    unit_ (ExpirationsOf (toUpperCase symbol)
             (match option_contracts with
              | Some contracts => sortedExpirations contracts
              | None => sort []
              end)).

(** [app.get("/api/options/expirations/:symbol")] *)
Definition get_api_options_expirations (symbol : string) (s : State api)
  : expirations_reply * State api * list Call :=
  match expirations_body symbol s [] with
  | (inr reply, s', log) => (reply, s', log)
  | (inl error, s', log) => (ExpirationsFailed error, s', log)
  end.

End Handler.

End Expirations.

(** *** [GET /api/options/all/:symbol] *)

Module AllOptions.

Import Alpaca.
Local Open Scope route_scope.

(** An entry of the reply; [bid], [ask], [last], [volume] and
    [implied_volatility] are 0 and [pricing_source] is
    ["contract_data_only"] in every entry. *)
Record option_entry : Type := {
  op_symbol : string;
  op_underlying : string;
  op_strike : Q;
  op_expiration : string;
  op_type : string;
  op_open_interest : jsnum
}.

(** [parseInt(contract.open_interest) || 0] *)
Definition open_interest_of (open_interest : option strnum) : jsnum :=
  match open_interest with
  | None => Num 0
  | Some x =>
      match parseInt x with
      | NaN => Num 0
      | Num q => if Qeq_bool q 0 then Num 0 else Num q
      end
  end.

Definition entry_of (contract : Contract) : option_entry :=
  {| op_symbol := ct_symbol contract;
     op_underlying := ct_underlying_symbol contract;
     op_strike := ct_strike contract;
     op_expiration := ct_expiration_date contract;
     op_type := ct_type contract;
     op_open_interest := open_interest_of (ct_open_interest contract) |}.

(** The object [expirations]: its keys with their arrays, in the order
    [Object.keys] and [JSON.stringify] go through them. *)
Definition groups : Type := list (string * list option_entry).

Fixpoint lookup (key : string) (o : groups) : option (list option_entry) :=
  match o with
  | [] => None
  | (k, entries) :: o' => if (key =? k)%string then Some entries else lookup key o'
  end.

(** The property names every object inherits: looked up on the fresh
    object [expirations] they give a function, or the prototype itself. *)
Definition inherited_keys : list string :=
  [ "constructor"; "__defineGetter__"; "__defineSetter__"; "hasOwnProperty";
    "__lookupGetter__"; "__lookupSetter__"; "isPrototypeOf";
    "propertyIsEnumerable"; "toString"; "valueOf"; "__proto__"; "toLocaleString" ].

Definition is_inherited (key : string) : bool :=
  existsb (String.eqb key) inherited_keys.

(** The number a key stands for when it is an array index: digits with no
    leading zero, at most 2^32 - 2.  Such keys come first in an object, in
    ascending order; the other keys follow in the order they were added. *)
Definition array_index (key : string) : option Z :=
  match key with
  | EmptyString => None
  | String c rest =>
      if forallb OptionSymbol.is_digit (list_ascii_of_string key)
         && negb ((c =? "0")%char && negb (rest =? "")%string)
      then
        match digits 10 None key with
        | Some n => if n <=? 4294967294 then Some n else None
        | None => None
        end
      else None
  end.

Fixpoint insert_index (n : Z) (key : string) (entries : list option_entry)
    (o : groups) : groups :=
  match o with
  | [] => [(key, entries)]
  | (k, x) :: o' =>
      match array_index k with
      | Some m => if m <? n then (k, x) :: insert_index n key entries o'
                  else (key, entries) :: o
      | None => (key, entries) :: o
      end
  end.

(** [expirations[key] = entries] for a key that is not there yet. *)
Definition add_key (key : string) (entries : list option_entry) (o : groups) : groups :=
  match array_index key with
  | Some n => insert_index n key entries o
  | None => (o ++ [(key, entries)])%list
  end.

(** [expirations[key].push(entry)] for a key that is there. *)
Fixpoint push_to (key : string) (entry : option_entry) (o : groups) : groups :=
  match o with
  | [] => []
  | (k, entries) :: o' =>
      if (key =? k)%string then (k, (entries ++ [entry])%list) :: o'
      else (k, entries) :: push_to key entry o'
  end.

(** One round of the [forEach]: the array is made when
    [expirations[expiration]] is falsy, and the entry is pushed.  On an
    inherited name what is found is truthy and has no [push]. *)
Definition group_one (o : groups) (contract : Contract) : answer groups :=
  let expiration := ct_expiration_date contract in
  if is_inherited expiration then
    inl (TypeError "expirations[expiration].push is not a function")
  else
    match lookup expiration o with
    | None => inr (add_key expiration [entry_of contract] o)
    | Some _ => inr (push_to expiration (entry_of contract) o)
    end.

Fixpoint group_all (o : groups) (option_contracts : list Contract) : answer groups :=
  match option_contracts with
  | [] => inr o
  | contract :: rest =>
      match group_one o contract with
      | inl e => inl e
      | inr o' => group_all o' rest
      end
  end.

(** [entries.sort((a, b) => a.strike - b.strike)]: ascending by strike,
    entries of one strike in the order they had. *)
Fixpoint insert_by_strike (entry : option_entry) (sorted : list option_entry)
  : list option_entry :=
  match sorted with
  | [] => [entry]
  | e :: rest =>
      if Qle_bool (op_strike entry) (op_strike e) then entry :: sorted
      else e :: insert_by_strike entry rest
  end.

Definition sort_by_strike (entries : list option_entry) : list option_entry :=
  fold_right insert_by_strike [] entries.

(** [Object.keys(expirations).forEach(...)] *)
Definition sort_groups (o : groups) : groups :=
  map (fun g => (fst g, sort_by_strike (snd g))) o.

(** The replies: the status of the broker as in the expirations route;
    [{success: true, symbol, expirations: {}, pricing_source: "no_data"}];
    [{success: true, symbol, expirations, pricing_source:
    "contract_data_only"}]; or status 500 with "Failed to fetch all
    options". *)
Inductive all_options_reply : Type :=
| AllUpstream (status : Z) (statusText : string)
| AllNoData (symbol : string)
| AllGrouped (symbol : string) (expirations : groups)
| AllFailed (error : exn).

Section Handler.

Variable api : Api.

Definition all_options_body (symbol : string) : Route api all_options_reply :=
  response <~ request (FetchContracts (Expirations.contracts_url symbol "1000"))
                      (fetch_contracts api (Expirations.contracts_url symbol "1000")) ;;
  if negb (resp_ok response) then
    unit_ (AllUpstream (resp_status response) (resp_statusText response))
  else
    option_contracts <~ of_answer (Expirations.option_contracts_of response) ;;
    match option_contracts with
    | None | Some [] => unit_ (AllNoData (toUpperCase symbol))
    | Some contracts =>
        expirations <~ of_answer (group_all [] contracts) ;;
        unit_ (AllGrouped (toUpperCase symbol) (sort_groups expirations))
    end.

(** [app.get("/api/options/all/:symbol")] *)
Definition get_api_options_all (symbol : string) (s : State api)
  : all_options_reply * State api * list Call :=
  match all_options_body symbol s [] with
  | (inr reply, s', log) => (reply, s', log)
  | (inl error, s', log) => (AllFailed error, s', log)
  end.

End Handler.

(** What is found under a date after the [forEach], from what was there
    before and the contracts gone through. *)
Definition joined (found : option (list option_entry)) (more : list option_entry)
  : option (list option_entry) :=
  match found, more with
  | Some entries, _ => Some (entries ++ more)%list
  | None, [] => None
  | None, _ => Some more
  end.

(** Ascending by strike. *)
Definition strike_not_above (a b : option_entry) : Prop :=
  (op_strike a <= op_strike b)%Q.

(** The entries of the contracts that expire on [date], in the order of the
    contracts. *)
Definition expiring (date : string) (option_contracts : list Contract)
  : list option_entry :=
  map entry_of
    (filter (fun c => (ct_expiration_date c =? date)%string) option_contracts).

End AllOptions.

(** *** [GET /api/options/chain/:symbol] *)

Module Chain.

Import Alpaca AllOptions.
Local Open Scope route_scope.

(** The replies.
    - [ChainOptions]: [{success: true, symbol, expiration, options,
      pricing_source: "contract_data_only"}];
    - [ChainNoData]: [{success: true, symbol, expiration, options: [],
      pricing_source: "no_data"}];
    - [ChainFailed]: status 500, "Failed to fetch options chain". *)
Inductive chain_reply : Type :=
| ChainOptions (symbol : string) (expiration : option string) (options : list option_entry)
| ChainNoData (symbol : string) (expiration : option string)
| ChainFailed (error : exn).

(** Whether a value can be turned into a string: an object whose own
    [toString] is data cannot, and an array is joined from its elements. *)
Fixpoint stringifies (v : json) : bool :=
  match v with
  | JObj fields =>
      match assoc "toString" fields with
      | None => true
      | Some _ => false
      end
  | JArr elements => forallb stringifies elements
  | _ => true
  end.

(** Whether [v.toString()] returns, for a value read from the quote: not
    on [undefined] or [null]. *)
Definition has_toString (v : value) : bool :=
  match v with
  | None | Some JNull => false
  | Some j => stringifies j
  end.

(** [(parseFloat(quote.BidPrice.toString()) + parseFloat(quote.AskPrice
    .toString())) / 2]: what can be thrown.  The price itself goes to the
    console only. *)
Definition price_read (quote : json) : answer unit :=
  match get (Some quote) "BidPrice" with
  | inl e => inl e
  | inr bid =>
      if has_toString bid then
        match get (Some quote) "AskPrice" with
        | inl e => inl e
        | inr ask =>
            if has_toString ask then inr tt
            else inl (TypeError "Cannot read properties of undefined: toString")
        end
      else inl (TypeError "Cannot read properties of undefined: toString")
  end.

(** [let filteredContracts = ...; if (expiration) { ... filter(...) }] *)
Definition filteredContracts (expiration : option string) (option_contracts : list Contract)
  : list Contract :=
  match expiration with
  | Some date =>
      if truthy_string date
      then filter (fun contract => (ct_expiration_date contract =? date)%string)
             option_contracts
      else option_contracts
  | None => option_contracts
  end.

Section Handler.

Variable api : Api.
Variable tradingMode : value.

(** One attempt at the stock price, through the client [alpaca]. *)
Definition stock_price (alpaca : client) (symbol : string) : Route api unit :=
  quote <~ request (GetLatestQuote alpaca symbol) (getLatestQuote api alpaca symbol) ;;
  of_answer (price_read quote).

(** The [try] around the contracts: [Some options] is the early [return]
    with the options, [None] is falling out of the [try], or into its
    [catch]. *)
Definition chain_contracts (symbol : string) (expiration : option string)
  : Route api (option (list option_entry)) :=
  attempt
    (contractsResponse <~ request (FetchContracts (Expirations.contracts_url symbol "500"))
                            (fetch_contracts api (Expirations.contracts_url symbol "500")) ;;
     if resp_ok contractsResponse then
       option_contracts <~ of_answer (Expirations.option_contracts_of contractsResponse) ;;
       match option_contracts with
       | None | Some [] => unit_ None
       | Some contracts =>
           match filteredContracts expiration contracts with
           | [] => unit_ None
           | filtered => unit_ (Some (map entry_of filtered))
           end
       end
     else unit_ None)
    (fun error => unit_ None).

Definition chain_body (symbol : string) (expiration : option string)
  : Route api chain_reply :=
  _ <~ attempt (stock_price getLiveMarketDataApi symbol)
         (fun error =>
            attempt (stock_price (getAlpacaApi tradingMode) symbol)
              (fun paperError => unit_ tt)) ;;
  found <~ chain_contracts symbol expiration ;;
  match found with
  | Some options => unit_ (ChainOptions (toUpperCase symbol) expiration options)
  | None => unit_ (ChainNoData (toUpperCase symbol) expiration)
  end.

(** [app.get("/api/options/chain/:symbol")] *)
Definition get_api_options_chain (symbol : string) (expiration : option string)
    (s : State api) : chain_reply * State api * list Call :=
  match chain_body symbol expiration s [] with
  | (inr reply, s', log) => (reply, s', log)
  | (inl error, s', log) => (ChainFailed error, s', log)
  end.

End Handler.

(** The options of a reply; none when there is no data. *)
Definition options_of (reply : chain_reply) : list option_entry :=
  match reply with
  | ChainOptions _ _ options => options
  | _ => []
  end.

Definition is_quote (c : Call) : bool :=
  match c with
  | GetLatestQuote _ _ _ => true
  | _ => false
  end.

End Chain.

(** *** Reading the log of the options order handler, continued *)

Module Submission.

Definition is_null (j : json) : bool :=
  match j with
  | JNull => true
  | _ => false
  end.

(** A submission the broker accepted, in a form the handler can read: the
    SDK resolved with an order, or [fetch] gave an ok status and a body that
    parses to an order. *)
Definition accepted_call (e : Event) : bool :=
  match e with
  | CreateOrder _ (inr order) => negb (is_null order)
  | PostOrders _ _ (inr response) =>
      ok response
      && match parsed response with
         | Some order => negb (is_null order)
         | None => false
         end
  | _ => false
  end.

(** Whether the last call of a log is such a submission. *)
Definition last_accepted (log : list Event) : bool :=
  match rev log with
  | e :: _ => accepted_call e
  | [] => false
  end.

End Submission.

(** *** A scripted broker for the remaining routes, and sample data *)

Module Samples.

Import Alpaca.

(** The answers the broker is going to give, and the ids of the orders it
    refuses to cancel. *)
Record Script : Type := {
  position : answer json;
  held : answer (list json);
  orders : answer (list json);
  refused : list string;
  quote : answer json;
  contracts : answer contracts_response
}.

Definition cancel (id : value) (s : Script) : answer unit :=
  match id with
  | Some (JStr i) =>
      if existsb (String.eqb i) (refused s)
      then inl (Rejection (JObj [("message", JStr "order is not cancelable")]))
      else inr tt
  | _ => inl (Rejection (JObj [("message", JStr "order not found")]))
  end.

Definition api : Api :=
  {| State := Script;
     getPosition := fun _ s => (position s, s);
     getPositions := fun s => (held s, s);
     getOrders := fun _ s => (orders s, s);
     cancelOrder := fun id s => (cancel id s, s);
     getLatestQuote := fun _ _ s => (quote s, s);
     fetch_contracts := fun _ s => (contracts s, s) |}.

Definition open_order (id symbol : string) : json :=
  JObj [("id", JStr id); ("symbol", JStr symbol); ("status", JStr "new")].

Definition three_orders : list json :=
  [open_order "o1" "AAPL"; open_order "o2" "MSFT"; open_order "o3" "AAPL"].

Definition put_150 : Contract :=
  {| ct_symbol := "MSTR250725P00150000"; ct_underlying_symbol := "MSTR";
     ct_strike := 150 # 1; ct_expiration_date := "2025-07-25"; ct_type := "put";
     ct_open_interest := Some (SStr "12") |}.

Definition call_140 : Contract :=
  {| ct_symbol := "MSTR250718C00140000"; ct_underlying_symbol := "MSTR";
     ct_strike := 140 # 1; ct_expiration_date := "2025-07-18"; ct_type := "call";
     ct_open_interest := None |}.

Definition call_145 : Contract :=
  {| ct_symbol := "MSTR250725C00145000"; ct_underlying_symbol := "MSTR";
     ct_strike := 145 # 1; ct_expiration_date := "2025-07-25"; ct_type := "call";
     ct_open_interest := Some (SStr "3") |}.

Definition mstr_contracts : list Contract := [put_150; call_140; call_145].

Definition mstr_response : contracts_response :=
  {| resp_status := 200; resp_statusText := "OK";
     resp_data := Some (DataWith mstr_contracts) |}.

(** No position is held (the SDK rejects with a 404), three orders are
    open and the second one cannot be cancelled, no quote is to be had, and
    three contracts are listed. *)
Definition script : Script :=
  {| position := inl (Rejection (JObj [("message", JStr "position does not exist")]));
     held := inr [];
     orders := inr three_orders;
     refused := ["o2"];
     quote := inl (Rejection (JObj [("message", JStr "subscription does not permit")]));
     contracts := inr mstr_response |}.

(** The arrays of the two dates as [/api/options/all/mstr] gives them. *)
Definition mstr_groups : AllOptions.groups :=
  [("2025-07-25", [AllOptions.entry_of call_145; AllOptions.entry_of put_150]);
   ("2025-07-18", [AllOptions.entry_of call_140])].


(** A request to [/api/orders] for an option contract written in lower
    case. *)
Definition buy_put_lower_case : order_request :=
  {| req_symbol := Some "mstr250725p00150000";
     req_side := Some "buy";
     req_quantity := Some (SStr "1");
     req_price := Some (SStr "1.44");
     req_orderType := Some "limit" |}.





End Samples.

(* ===================================================================== *)
(** ** Properties: trading mode                                           *)
(* ===================================================================== *)

Import TradingMode.
Import Scripted.

Lemma serve_is_mode (tm : value) (r : TradingMode.request) :
  is_mode tm -> is_mode (serve tm r).
Proof.
  intros Htm. destruct r as [mode|]; simpl; [|exact Htm].
  unfold post_api_trading_mode.
  destruct (is_string mode "paper") eqn:Ep; simpl.
  - left. destruct mode as [[| | |s| |]|]; simpl in Ep; try discriminate.
    apply String.eqb_eq in Ep. now subst.
  - destruct (is_string mode "live") eqn:El; simpl; [|exact Htm].
    right. destruct mode as [[| | |s| |]|]; simpl in El; try discriminate.
    apply String.eqb_eq in El. now subst.
Qed.

Lemma fold_serve_is_mode (rs : list TradingMode.request) :
  forall tm, is_mode tm -> is_mode (fold_left serve rs tm).
Proof.
  induction rs as [|r rs IH]; intros tm Htm; simpl; [exact Htm|].
  apply IH, serve_is_mode, Htm.
Qed.

Lemma is_string_not_mode (mode : value) :
  ~ is_mode mode -> is_string mode "paper" = false /\ is_string mode "live" = false.
Proof.
  intros H. unfold is_mode in H.
  destruct mode as [[| | |s| |]|]; simpl; auto.
  split; apply String.eqb_neq; intros ->; apply H; auto.
Qed.

(** C10.  The trading mode starts as "paper"; after any sequence of
    requests it is "paper" or "live"; a request to set it to one of the two
    stores that value, and any other request is answered with status 400 and
    leaves the stored mode as it was. *)
Theorem tradingMode_paper_or_live :
  tradingMode_init = Some (JStr "paper")
  /\ (forall rs : list TradingMode.request, is_mode (tradingMode_after rs))
  /\ (forall mode tm : value,
        is_mode mode -> post_api_trading_mode mode tm = (ModeSet mode, mode))
  /\ (forall mode tm : value,
        ~ is_mode mode ->
        post_api_trading_mode mode tm
        = (ModeRejected 400 "Mode must be 'paper' or 'live'", tm)).
Proof.
  split; [reflexivity|]. split; [|split].
  - intros rs. apply fold_serve_is_mode. now left.
  - intros mode tm [-> | ->]; reflexivity.
  - intros mode tm H. unfold post_api_trading_mode.
    destruct (is_string_not_mode mode H) as [-> ->]. reflexivity.
Qed.

Example tradingMode_run :
  tradingMode_after
    [PostTradingMode (Some (JStr "live")); ReadOnlyRoute;
     PostTradingMode (Some (JStr "LIVE")); PostTradingMode None;
     PostTradingMode (Some (JBool true))]
  = Some (JStr "live").
Proof. reflexivity. Qed.

(* ===================================================================== *)
(** ** Properties: the side resolver                                      *)
(* ===================================================================== *)

(** C5.  On every requested side and every position quantity, absent or a
    number, the smart side computed by the handler is the one the decision
    table gives: a qualified side unchanged, [sell] on a positive quantity
    [sell_to_close] and otherwise [sell_to_open], [buy] on a negative
    quantity [buy_to_close] and otherwise [buy_to_open]. *)
Theorem smartSide_matches_table
    (requestedSide : Spec.Side) (existingPosition : option Position)
    (positionQuantity : option Q) :
  Spec.quantity_is existingPosition positionQuantity ->
  smartSide_of (Spec.name requestedSide) existingPosition
  = Spec.name (Spec.resolve requestedSide positionQuantity).
Proof.
  intros H. unfold smartSide_of.
  destruct existingPosition as [pos|], positionQuantity as [q|];
    simpl in H; try contradiction.
  - rewrite H. unfold gt0, lt0, le0, ge0.
    destruct requestedSide; simpl; try reflexivity.
    + destruct (Qle_bool 0 q); reflexivity.
    + destruct (Qle_bool q 0); reflexivity.
  - destruct requestedSide; reflexivity.
Qed.

Lemma smartSide_matches_table_witness :
  Spec.quantity_is (Some long_one) (Some 1%Q)
  /\ smartSide_of "sell" (Some long_one) = "sell_to_close".
Proof.
  split.
  - reflexivity.
  - exact (smartSide_matches_table Spec.sell (Some long_one) (Some 1%Q) eq_refl).
Defined.

(** The rows of the table one by one, with the comparisons spelled out. *)
Lemma sell_with_long_position (pos : Position) (q : Q) :
  pos_qty_parsed pos = Num q -> (0 < q)%Q ->
  smartSide_of "sell" (Some pos) = "sell_to_close".
Proof.
  intros Hq Hpos. unfold smartSide_of. rewrite Hq. simpl.
  destruct (Qle_bool q 0) eqn:E; [|reflexivity].
  apply Qle_bool_iff in E. exfalso. exact (Qlt_not_le _ _ Hpos E).
Qed.

Lemma sell_without_long_position (pos : Position) (q : Q) :
  pos_qty_parsed pos = Num q -> (q <= 0)%Q ->
  smartSide_of "sell" (Some pos) = "sell_to_open"
  /\ smartSide_of "sell" None = "sell_to_open".
Proof.
  intros Hq Hle. split; [|reflexivity].
  unfold smartSide_of. rewrite Hq. simpl.
  apply Qle_bool_iff in Hle. now rewrite Hle.
Qed.

Lemma buy_with_short_position (pos : Position) (q : Q) :
  pos_qty_parsed pos = Num q -> (q < 0)%Q ->
  smartSide_of "buy" (Some pos) = "buy_to_close".
Proof.
  intros Hq Hneg. unfold smartSide_of. rewrite Hq. simpl.
  destruct (Qle_bool 0 q) eqn:E; [|reflexivity].
  apply Qle_bool_iff in E. exfalso. exact (Qlt_not_le _ _ Hneg E).
Qed.

Lemma buy_without_short_position (pos : Position) (q : Q) :
  pos_qty_parsed pos = Num q -> (0 <= q)%Q ->
  smartSide_of "buy" (Some pos) = "buy_to_open"
  /\ smartSide_of "buy" None = "buy_to_open".
Proof.
  intros Hq Hle. split; [|reflexivity].
  unfold smartSide_of. rewrite Hq. simpl.
  apply Qle_bool_iff in Hle. now rewrite Hle.
Qed.

(** A quantity that does not parse leaves [buy] and [sell] as they are: all
    four comparisons with [NaN] are false. *)
Lemma smartSide_on_NaN (side : string) (pos : Position) :
  pos_qty_parsed pos = NaN -> smartSide_of side (Some pos) = side.
Proof.
  intros H. unfold smartSide_of. rewrite H. simpl.
  now rewrite !andb_false_r.
Qed.

(** The wire side of each resolved side. *)
Lemma wire_side_of_resolved (requestedSide : Spec.Side) (positionQuantity : option Q) :
  wire_side (Spec.name (Spec.resolve requestedSide positionQuantity))
  = match requestedSide with
    | Spec.buy | Spec.buy_to_open | Spec.buy_to_close => "buy"
    | _ => "sell"
    end.
Proof.
  destruct requestedSide; simpl; try reflexivity.
  - destruct (Spec.negative positionQuantity); reflexivity.
  - destruct (Spec.positive positionQuantity); reflexivity.
Qed.

(* ===================================================================== *)
(** ** Properties: runs of the order handler                              *)
(* ===================================================================== *)

Lemma submissions_app (l1 l2 : list Event) :
  submissions (l1 ++ l2) = (submissions l1 ++ submissions l2)%list.
Proof.
  induction l1 as [|e l1 IH]; simpl; [reflexivity|].
  destruct (submitted e); simpl; now rewrite IH.
Qed.

(** One step of a case analysis on a run: the innermost scrutinee first. *)
Ltac break_run :=
  match goal with
  | |- context [match ?x with _ => _ end] =>
      lazymatch x with
      | context [match _ with _ => _ end] => fail
      | _ => destruct x eqn:?
      end
  end; cbv beta iota.

Ltac unfold_run :=
  unfold submit_order, direct_api, classify_rejection, retry_after_wash_trade,
    alternative_margin_approach, finish, try_catch, bind, await, sleep, lift,
    ret, send, throw.

Section Runs.

Variable B : Broker.

Lemma check_account_run (w : World B) (log : list Event) :
  exists a0 w',
    check_account B w log = (Normal tt, w', (log ++ [GetAccount a0])%list).
Proof.
  unfold check_account, try_catch, bind, await, lift, ret, throw.
  destruct (getAccount B w) as [[e|a] w']; cbv beta iota; eauto.
  destruct (get (Some a) "id"); cbv beta iota; eauto.
Qed.

Lemma check_positions_run (symbol side : string) (w : World B) (log : list Event) :
  exists a1 w',
    check_positions B symbol side w log
    = (Normal (after_positions symbol side a1), w', (log ++ [GetPositions a1])%list).
Proof.
  unfold check_positions, try_catch, bind, await, ret.
  destruct (getPositions B w) as [[e|positions] w']; cbv beta iota.
  - exists (inl e), w'. reflexivity.
  - exists (inr positions), w'. reflexivity.
Qed.

(** A request that passes validation reaches the submission with the log
    of the two checks. *)
Lemma place_order_run (tradingMode : value) (req : order_request) (w : World B)
    (symbol side : string) (quantity price : strnum) :
  required_fields req = Some (symbol, side, quantity, price) ->
  exists a0 a1 w1,
    place_order B tradingMode req w []
    = submit_order B tradingMode
        (orderData_of symbol quantity price (orderType_of req)
           (snd (after_positions symbol side a1)))
        (snd (after_positions symbol side a1)) side
        (fst (after_positions symbol side a1))
        w1 [GetAccount a0; GetPositions a1].
Proof.
  intros Hreq. unfold place_order. rewrite Hreq. unfold bind at 1.
  destruct (check_account_run w []) as (a0 & w0 & ->).
  unfold bind at 1.
  destruct (check_positions_run symbol side w0 ([] ++ [GetAccount a0])) as (a1 & w1 & ->).
  exists a0, a1, w1. reflexivity.
Qed.

Lemma submit_order_submissions (tradingMode : value) (orderData : OrderData)
    (smartSide side : string) (existingPosition : option Position)
    (w : World B) (log : list Event) :
  (length (submissions
     (snd (finish B (submit_order B tradingMode orderData smartSide side
                       existingPosition w log)))) <= length (submissions log) + 3)%nat.
Proof.
  unfold_run.
  repeat break_run;
    cbn [snd]; rewrite ?submissions_app, ?length_app; simpl; lia.
Qed.

Lemma get_throws_on_every_key (o : value) (k k' : string) (v : value) (e : exn) :
  get o k = inr v -> get o k' = inl e -> False.
Proof.
  destruct o as [[| | | | |]|]; simpl; congruence.
Qed.

Lemma fields_of_not_null (order : json) :
  order <> JNull -> exists fields, fields_of (Some order) = inr fields.
Proof.
  intros H. unfold fields_of. destruct order; simpl; eauto. now elim H.
Qed.

(** Every way the submission can go, one goal for each. *)
Ltac explore_run :=
  unfold_run; unfold json_of; repeat break_run; cbn [fst snd app].

(** The same with the log of the run given by [H]: the cases whose log or
    whose recorded answers differ from the ones assumed are closed. *)
Ltac read_log H :=
  revert H; explore_run;
  intros H; try discriminate H;
  injection H; intros; subst;
  repeat match goal with
         | E : negb _ = true |- _ => apply negb_true_iff in E
         | E : negb _ = false |- _ => apply negb_false_iff in E
         end;
  try congruence;
  try match goal with
      | E1 : get ?o _ = inr _, E2 : get ?o _ = inl _ |- _ =>
          exfalso; exact (get_throws_on_every_key _ _ _ _ _ E1 E2)
      end;
  repeat match goal with
         | E1 : ?t = inr _, E2 : ?t = inr _ |- _ =>
             rewrite E1 in E2; injection E2 as <-
         end.

(** A log with a call in it is the log of a request that passed
    validation. *)
Lemma logged_call_passed_validation (tradingMode : value) (req : order_request)
    (w : World B) (ev : Event) (rest : list Event) :
  calls_of B tradingMode req w = ev :: rest ->
  exists symbol side quantity price,
    required_fields req = Some (symbol, side, quantity, price).
Proof.
  unfold calls_of, post_api_options_orders, place_order.
  destruct (required_fields req) as [[[[symbol side] quantity] price]|].
  - intros _. now exists symbol, side, quantity, price.
  - discriminate.
Qed.

(** C8.  A request in which the symbol, the side, the quantity or the
    price is missing is answered with the validation error, and no call is
    made: the log is empty and the broker is as it was. *)
Theorem missing_field_no_remote_call (tradingMode : value) (req : order_request)
    (w : World B) :
  req_symbol req = None \/ req_side req = None
  \/ req_quantity req = None \/ req_price req = None ->
  post_api_options_orders B tradingMode req w = (MissingFields, w, []).
Proof.
  intros H. unfold post_api_options_orders, place_order, required_fields.
  destruct (req_symbol req), (req_side req), (req_quantity req), (req_price req);
    try reflexivity.
  destruct H as [H | [H | [H | H]]]; discriminate H.
Qed.

(** The same for a field that is there but is the empty string or the
    number zero. *)
Lemma falsy_field_no_remote_call (tradingMode : value) (req : order_request)
    (w : World B) :
  req_symbol req = Some "" \/ req_side req = Some ""
  \/ (exists x, req_quantity req = Some x /\ truthy_strnum x = false)
  \/ (exists x, req_price req = Some x /\ truthy_strnum x = false) ->
  post_api_options_orders B tradingMode req w = (MissingFields, w, []).
Proof.
  intros H. unfold post_api_options_orders, place_order, required_fields.
  destruct (req_symbol req) as [symbol|], (req_side req) as [side|],
    (req_quantity req) as [quantity|], (req_price req) as [price|];
    try reflexivity.
  destruct H as [H | [H | [(x & H & Hx) | (x & H & Hx)]]];
    injection H as ->; try rewrite Hx; simpl;
    rewrite ?orb_true_r; reflexivity.
Qed.

(** C1, as the code has it.  One call of the handler submits the order at
    most three times: through the SDK, through the direct API when the SDK
    has failed, and once more after a wash-trade rejection of the direct
    API. *)
Theorem at_most_three_submissions (tradingMode : value) (req : order_request)
    (w : World B) :
  (length (submissions (calls_of B tradingMode req w)) <= 3)%nat.
Proof.
  unfold calls_of, post_api_options_orders.
  destruct (required_fields req) as [[[[symbol side] quantity] price]|] eqn:Hreq.
  - destruct (place_order_run tradingMode req w symbol side quantity price Hreq)
      as (a0 & a1 & w1 & ->).
    apply (submit_order_submissions tradingMode _ _ side _ w1
             [GetAccount a0; GetPositions a1]).
  - unfold place_order. rewrite Hreq. simpl. lia.
Qed.

(** C2, as the code has it.  When the SDK submission has failed and the
    direct API submission that follows is rejected with a message that holds
    the wash-trade text and not the short-sell text, exactly one further
    submission is made, after a pause of 100 ms, with the same order body;
    if that retry is answered with an ok status and an order, the reply is a
    success with method [retry_after_wash_trade]. *)
Theorem wash_trade_retry (tradingMode : value) (req : order_request) (w : World B)
    (a0 : answer json) (a1 : answer (list Position)) (a2 : answer json)
    (orderData body : OrderData) (apiUrl : string) (response : HttpResponse)
    (message : value) (rest : list Event) :
  calls_of B tradingMode req w
  = GetAccount a0 :: GetPositions a1 :: CreateOrder orderData a2
    :: PostOrders apiUrl body (inr response) :: rest ->
  ok response = false ->
  get (errorData_of response) "message" = inr message ->
  has_text message wash_trade_text = inr true ->
  has_text message short_sell_text = inr false ->
  body = orderData
  /\ exists a4 : answer HttpResponse,
       rest = [SetTimeout 100; PostOrders apiUrl orderData a4]
       /\ forall (retryResponse : HttpResponse) (retryOrder : json),
            a4 = inr retryResponse ->
            ok retryResponse = true ->
            parsed retryResponse = Some retryOrder ->
            retryOrder <> JNull ->
            success (reply_of B tradingMode req w) = true
            /\ method_of (reply_of B tradingMode req w) = Some "retry_after_wash_trade".
Proof.
  intros Hlog Hok Hmsg Hwash Hshort.
  destruct (logged_call_passed_validation _ _ _ _ _ Hlog)
    as (symbol & side & quantity & price & Hreq).
  unfold reply_of. unfold calls_of in Hlog. unfold post_api_options_orders in *.
  destruct (place_order_run tradingMode req w symbol side quantity price Hreq)
    as (b0 & b1 & w1 & Hrun).
  rewrite Hrun in *. clear Hrun.
  read_log Hlog.
  all: (split; [reflexivity|]; eexists; split; [reflexivity|]).
  all: intros retryResponse retryOrder Ha4 Hok4 Hparsed Hnull;
    try discriminate Ha4; injection Ha4 as <-; try congruence.
  all: try (destruct (fields_of_not_null retryOrder Hnull); congruence).
  all: split; reflexivity.
Qed.

(** The second branch on the short-sell text is never taken: no body that
    is submitted carries [order_class], and no pause of 200 ms is made. *)
Lemma alternative_order_never_submitted (tradingMode : value) (req : order_request)
    (w : World B) :
  (forall body, In body (submissions (calls_of B tradingMode req w)) ->
                od_order_class body = None)
  /\ ~ In (SetTimeout 200) (calls_of B tradingMode req w).
Proof.
  unfold calls_of, post_api_options_orders.
  destruct (required_fields req) as [[[[symbol side] quantity] price]|] eqn:Hreq.
  2:{ unfold place_order. rewrite Hreq. simpl. split; [intros ? []|intros []]. }
  destruct (place_order_run tradingMode req w symbol side quantity price Hreq)
    as (a0 & a1 & w1 & ->).
  explore_run.
  all: split;
    [ intros body Hin; simpl in Hin;
      repeat (destruct Hin as [<- | Hin]; [reflexivity|]); destruct Hin
    | intros Hin; simpl in Hin;
      repeat (destruct Hin as [Hin | Hin]; [discriminate Hin|]); destruct Hin ].
Qed.

(** When the SDK has failed the order goes to the direct API, whatever
    the failure was. *)
Lemma sdk_failure_falls_back (tradingMode : value) (req : order_request) (w : World B)
    (a0 : answer json) (a1 : answer (list Position)) (orderData : OrderData)
    (sdkError : exn) (rest : list Event) :
  calls_of B tradingMode req w
  = GetAccount a0 :: GetPositions a1 :: CreateOrder orderData (inl sdkError) :: rest ->
  exists a3 rest',
    rest = PostOrders (apiUrl_of tradingMode) orderData a3 :: rest'.
Proof.
  intros Hlog.
  destruct (logged_call_passed_validation _ _ _ _ _ Hlog)
    as (symbol & side & quantity & price & Hreq).
  unfold calls_of in Hlog. unfold post_api_options_orders in *.
  destruct (place_order_run tradingMode req w symbol side quantity price Hreq)
    as (b0 & b1 & w1 & Hrun).
  rewrite Hrun in *. clear Hrun.
  read_log Hlog.
  all: eexists; eexists; reflexivity.
Qed.

(** C4, as the code has it.  When the SDK submission has failed and the
    direct API submission that follows is rejected with a message that holds
    neither the wash-trade text nor the short-sell text, nothing more is
    submitted and the reply carries that rejection: its status, its message
    (or its [error], or the fixed text) and its payload. *)
Theorem fatal_rejection_of_direct_api (tradingMode : value) (req : order_request)
    (w : World B)
    (a0 : answer json) (a1 : answer (list Position)) (a2 : answer json)
    (orderData body : OrderData) (apiUrl : string) (response : HttpResponse)
    (message : value) (rest : list Event) :
  calls_of B tradingMode req w
  = GetAccount a0 :: GetPositions a1 :: CreateOrder orderData a2
    :: PostOrders apiUrl body (inr response) :: rest ->
  ok response = false ->
  get (errorData_of response) "message" = inr message ->
  has_text message wash_trade_text = inr false ->
  has_text message short_sell_text = inr false ->
  rest = []
  /\ exists (error : value) (debug : debug_info),
       get (errorData_of response) "error" = inr error
       /\ reply_of B tradingMode req w
          = Rejected (status response)
              (Verbatim (or_else (or_else message error)
                           (Some (JStr "Options order failed"))))
              (errorData_of response) debug suggestions.
Proof.
  intros Hlog Hok Hmsg Hwash Hshort.
  destruct (logged_call_passed_validation _ _ _ _ _ Hlog)
    as (symbol & side & quantity & price & Hreq).
  unfold reply_of. unfold calls_of in Hlog. unfold post_api_options_orders in *.
  destruct (place_order_run tradingMode req w symbol side quantity price Hreq)
    as (b0 & b1 & w1 & Hrun).
  rewrite Hrun in *. clear Hrun.
  read_log Hlog.
  all: split; [reflexivity|].
  all: eexists; eexists; split; [eassumption|reflexivity].
Qed.

(** What the [catch] of the position check leaves behind.  When
    [getPositions] fails the order is still submitted, and the requested
    side is kept as the smart side: a reply that names a smart side names
    the requested one, and for a requested [sell] every body submitted has
    the wire side [sell]. *)
Lemma position_lookup_failure_keeps_side (tradingMode : value)
    (req : order_request) (w : World B)
    (symbol side : string) (quantity price : strnum)
    (a0 : answer json) (positionError : exn) (rest : list Event) :
  required_fields req = Some (symbol, side, quantity, price) ->
  calls_of B tradingMode req w
  = GetAccount a0 :: GetPositions (inl positionError) :: rest ->
  (exists body a2 rest', rest = CreateOrder body a2 :: rest')
  /\ (forall smartSide, smart_side_of (reply_of B tradingMode req w) = Some smartSide ->
                        smartSide = side)
  /\ (side = "sell" ->
      forall body, In body (submissions (calls_of B tradingMode req w)) ->
                   od_side body = "sell").
Proof.
  intros Hreq Hlog.
  unfold reply_of. unfold calls_of in *. unfold post_api_options_orders in *.
  destruct (place_order_run tradingMode req w symbol side quantity price Hreq)
    as (b0 & b1 & w1 & Hrun).
  rewrite Hrun in *. clear Hrun.
  read_log Hlog.
  all: cbn [after_positions fst snd].
  all: split; [do 3 eexists; reflexivity|].
  all: split;
    [ intros smartSide Hside; simpl in Hside;
      try discriminate Hside; now injection Hside as <- |].
  all: intros -> body Hin; simpl in Hin;
    repeat (destruct Hin as [<- | Hin]; [reflexivity|]); destruct Hin.
Qed.

(** C6.  The code does not do what the claim says.  When [getPositions]
    fails, a request to [buy] is still submitted, but it is not resolved as
    if the position were flat: the smart side stays [buy], and every body
    submitted has the wire side [sell].  When [getPositions] answers and no
    position in the symbol is held, the same request is resolved to
    [buy_to_open] and every body submitted has the wire side [buy]. *)
Theorem failed_position_lookup_sends_buy_as_sell (tradingMode : value)
    (req : order_request) (w : World B)
    (symbol : string) (quantity price : strnum)
    (a0 : answer json) (a1 : answer (list Position)) (rest : list Event) :
  required_fields req = Some (symbol, "buy", quantity, price) ->
  calls_of B tradingMode req w = GetAccount a0 :: GetPositions a1 :: rest ->
  (exists body a2 rest', rest = CreateOrder body a2 :: rest')
  /\ (forall positionError, a1 = inl positionError ->
      (forall body, In body (submissions (calls_of B tradingMode req w)) ->
                    od_side body = "sell")
      /\ (forall smartSide,
            smart_side_of (reply_of B tradingMode req w) = Some smartSide ->
            smartSide = "buy"))
  /\ (forall positions, a1 = inr positions -> find_position symbol positions = None ->
      (forall body, In body (submissions (calls_of B tradingMode req w)) ->
                    od_side body = "buy")
      /\ (forall smartSide,
            smart_side_of (reply_of B tradingMode req w) = Some smartSide ->
            smartSide = "buy_to_open")).
Proof.
  intros Hreq Hlog.
  unfold reply_of. unfold calls_of in *. unfold post_api_options_orders in *.
  destruct (place_order_run tradingMode req w symbol "buy" quantity price Hreq)
    as (b0 & b1 & w1 & Hrun).
  rewrite Hrun in *. clear Hrun.
  read_log Hlog.
  all: split; [do 3 eexists; reflexivity|].
  all: split;
    [ intros positionError ->; cbn [after_positions fst snd]
    | intros positions -> Hnone; cbn [after_positions fst snd]; rewrite Hnone ].
  all: split;
    [ intros body Hin; simpl in Hin;
      repeat (destruct Hin as [<- | Hin]; [reflexivity|]); destruct Hin
    | intros smartSide Hside; simpl in Hside;
      try discriminate Hside; now injection Hside as <- ].
Qed.

(** Where [position_info] is written: in the replies of the SDK and of the
    direct API, and not in the reply after the retry. *)
Lemma position_info_by_method (tradingMode : value) (req : order_request)
    (w : World B) (order : order_fields)
    (message method smart_side original_side : string)
    (position_info : position_info_key) :
  reply_of B tradingMode req w
  = Placed order message method smart_side original_side position_info ->
  ((method = "alpaca_sdk" \/ method = "direct_api")
   /\ exists v, position_info = KeyPresent v)
  \/ (method = "retry_after_wash_trade" /\ position_info = KeyMissing).
Proof.
  unfold reply_of, post_api_options_orders.
  destruct (required_fields req) as [[[[symbol side] quantity] price]|] eqn:Hreq.
  2:{ unfold place_order. rewrite Hreq. discriminate. }
  destruct (place_order_run tradingMode req w symbol side quantity price Hreq)
    as (a0 & a1 & w1 & ->).
  explore_run.
  all: intros Hreply; try discriminate Hreply;
    injection Hreply as <- <- <- <- <- <-.
  all: first [ left; split; [solve [auto] | eexists; reflexivity]
             | right; split; reflexivity ].
Qed.

Lemma required_fields_truthy (req : order_request)
    (symbol side : string) (quantity price : strnum) :
  required_fields req = Some (symbol, side, quantity, price) ->
  symbol <> "" /\ side <> ""
  /\ truthy_strnum quantity = true /\ truthy_strnum price = true.
Proof.
  unfold required_fields.
  destruct (req_symbol req) as [s1|], (req_side req) as [s2|],
    (req_quantity req) as [q|], (req_price req) as [p|]; try discriminate.
  unfold truthy_string.
  destruct (String.eqb_spec s1 ""), (String.eqb_spec s2 ""),
    (truthy_strnum q) eqn:Eq, (truthy_strnum p) eqn:Ep; simpl; try discriminate.
  intros H. injection H as <- <- <- <-. auto.
Qed.

(** C9, as the code has it.  A request that passes validation has a
    quantity and a price that are truthy: a string that is not empty, or a
    number other than zero.  Every body submitted for it carries
    [parseInt(quantity)] as [qty] and, for a limit order only,
    [parseFloat(price).toFixed(2)] as [limit_price]. *)
Theorem validated_request_is_submitted_as_parsed (tradingMode : value)
    (req : order_request) (w : World B)
    (symbol side : string) (quantity price : strnum) :
  required_fields req = Some (symbol, side, quantity, price) ->
  truthy_strnum quantity = true
  /\ truthy_strnum price = true
  /\ forall body, In body (submissions (calls_of B tradingMode req w)) ->
       od_qty body = parseInt quantity
       /\ od_limit_price body
          = if (orderType_of req =? "limit")%string
            then Some (toFixed2_parseFloat price) else None.
Proof.
  intros Hreq.
  destruct (required_fields_truthy _ _ _ _ _ Hreq) as (_ & _ & Hq & Hp).
  split; [exact Hq|]. split; [exact Hp|].
  unfold calls_of, post_api_options_orders.
  destruct (place_order_run tradingMode req w symbol side quantity price Hreq)
    as (a0 & a1 & w1 & ->).
  set (limit_price := if (orderType_of req =? "limit")%string
                      then Some (toFixed2_parseFloat price) else None).
  explore_run.
  all: intros body Hin; simpl in Hin;
    repeat (destruct Hin as [<- | Hin]; [split; reflexivity|]); destruct Hin.
Qed.

End Runs.

(* ===================================================================== *)
(** ** Runs against the scripted broker                                   *)
(* ===================================================================== *)

Example parseInt_samples :
  parseInt (SStr "1") = Num (inject_Z 1)
  /\ parseInt (SStr "  -5abc") = Num (inject_Z (-5))
  /\ parseInt (SStr "0x1f") = Num (inject_Z 31)
  /\ parseInt (SStr "abc") = NaN
  /\ parseInt (SStr "1.44") = Num (inject_Z 1)
  /\ parseInt (SNum (-5)) = Num (inject_Z (-5))
  /\ parseInt (SNum (3 * 10 ^ 21)) = Num (inject_Z 3).
Proof. repeat split; vm_compute; reflexivity. Qed.

Example includes_samples :
  includes wash_trade_message wash_trade_text = true
  /\ includes wash_trade_message short_sell_text = false
  /\ includes "Potential Wash Trade Detected" wash_trade_text = false.
Proof. repeat split. Qed.

Example case_samples :
  toLowerCase "Sell" = "sell"
  /\ toUpperCase "mstr250725p00150000" = "MSTR250725P00150000"
  /\ smartSide_of "SELL" (Some long_one) = "sell_to_close"
  /\ smartSide_of "buy" (Some short_two) = "buy_to_close"
  /\ smartSide_of "sell" (Some short_two) = "sell_to_open"
  /\ smartSide_of "sell_to_open" (Some long_one) = "sell_to_open".
Proof. repeat split. Qed.

(** With a long position of one contract a plain sell goes out through the
    SDK as [sell_to_close], wire side [sell], and the reply carries the
    position. *)
Example sell_against_long_position :
  post_api_options_orders broker paper (one_contract "sell") all_well
  = (Placed {| of_id := Some (JStr "904837e3"); of_symbol := None; of_side := None;
               of_qty := None; of_type := None; of_status := Some (JStr "accepted");
               of_limit_price := None; of_filled_qty := None; of_created_at := None |}
       "Options order placed successfully via SDK" "alpaca_sdk"
       "sell_to_close" "sell"
       (KeyPresent (Some {| ps_qty := "1"; ps_side := "long" |})),
     all_well,
     [GetAccount (account all_well); GetPositions (inr [long_one]);
      CreateOrder (body_of "sell_to_close") (inr (accepted "904837e3"))])
  /\ od_side (body_of "sell_to_close") = "sell".
Proof. split; reflexivity. Qed.

Lemma missing_field_no_remote_call_witness :
  req_price no_price = None
  /\ post_api_options_orders broker paper no_price all_well
     = (MissingFields, all_well, []).
Proof.
  split.
  - reflexivity.
  - apply (missing_field_no_remote_call broker paper no_price all_well).
    right; right; right; reflexivity.
Defined.

(** C1, refuted as stated: the SDK rejects, the direct API rejects for a
    wash trade and the retry goes out, which makes three submissions of the
    same body in one call. *)
Lemma three_submissions_in_one_call :
  submissions (calls_of broker paper (one_contract "buy") wash_trade_throughout)
  = [body_of "buy_to_open"; body_of "buy_to_open"; body_of "buy_to_open"]
  /\ length (submissions (calls_of broker paper (one_contract "buy")
                            wash_trade_throughout)) = 3%nat.
Proof. split; reflexivity. Qed.

(** C2, refuted as stated, twice over.  A wash-trade rejection of the first
    submission, the one through the SDK, is followed at once by the direct
    API call, and when that one is accepted the method is [direct_api].  And
    a rejection of the direct API whose message holds the wash-trade text
    next to the short-sell text is not retried at all. *)
Lemma wash_trade_rejection_without_the_retry :
  (includes wash_trade_message wash_trade_text = true
   /\ calls_of broker paper (one_contract "buy") wash_trade_then_direct
      = [GetAccount (account wash_trade_then_direct); GetPositions (inr []);
         CreateOrder (body_of "buy_to_open") (inl (sdk_error wash_trade_message));
         PostOrders paper_url (body_of "buy_to_open")
           (inr (accepted_response "904837e3"))]
   /\ method_of (reply_of broker paper (one_contract "buy") wash_trade_then_direct)
      = Some "direct_api")
  /\ (get (errorData_of (rejection 403 both_texts_message)) "message"
      = inr (Some (JStr both_texts_message))
     /\ has_text (Some (JStr both_texts_message)) wash_trade_text = inr true
     /\ calls_of broker paper (one_contract "sell") both_texts
        = [GetAccount (account both_texts); GetPositions (inr []);
           CreateOrder (body_of "sell_to_open") (inl (sdk_error "request failed"));
           PostOrders paper_url (body_of "sell_to_open")
             (inr (rejection 403 both_texts_message))]
     /\ success (reply_of broker paper (one_contract "sell") both_texts) = false).
Proof. repeat split. Qed.

Lemma wash_trade_retry_witness :
  calls_of broker paper (one_contract "buy") wash_trade_then_accepted
  = [GetAccount (account wash_trade_then_accepted); GetPositions (inr []);
     CreateOrder (body_of "buy_to_open") (inl (sdk_error wash_trade_message));
     PostOrders paper_url (body_of "buy_to_open") (inr (rejection 403 wash_trade_message));
     SetTimeout 100;
     PostOrders paper_url (body_of "buy_to_open") (inr (accepted_response "904837e3"))]
  /\ method_of (reply_of broker paper (one_contract "buy") wash_trade_then_accepted)
     = Some "retry_after_wash_trade".
Proof.
  split; [reflexivity|].
  destruct (wash_trade_retry broker paper (one_contract "buy") wash_trade_then_accepted
              (account wash_trade_then_accepted) (inr [])
              (inl (sdk_error wash_trade_message))
              (body_of "buy_to_open") (body_of "buy_to_open") paper_url
              (rejection 403 wash_trade_message)
              (Some (JStr wash_trade_message))
              [SetTimeout 100;
               PostOrders paper_url (body_of "buy_to_open")
                 (inr (accepted_response "904837e3"))]
              eq_refl eq_refl eq_refl eq_refl eq_refl)
    as [_ (a4 & Hrest & Hretry)].
  injection Hrest as <-.
  apply (Hretry (accepted_response "904837e3") (accepted "904837e3")
           eq_refl eq_refl eq_refl).
  discriminate.
Defined.

(** C3 on the failing input: the direct API rejects a sell with the
    short-sell text.  The handler answers with the rejection; the log ends
    with the direct API call, so nothing is resubmitted, no pause is made
    and no body carries [order_class]. *)
Theorem short_sell_rejection_not_resubmitted :
  has_text (Some (JStr short_sell_message)) short_sell_text = inr true
  /\ calls_of broker paper (one_contract "sell") short_sell_conflict
     = [GetAccount (account short_sell_conflict); GetPositions (inr []);
        CreateOrder (body_of "sell_to_open") (inl (sdk_error short_sell_message));
        PostOrders paper_url (body_of "sell_to_open")
          (inr (rejection 403 short_sell_message))]
  /\ od_order_class (body_of "sell_to_open") = None
  /\ exists after details debug,
       reply_of broker paper (one_contract "sell") short_sell_conflict
       = Rejected 403
           (Template "Broker restriction: " (Some (JStr short_sell_message)) after)
           details debug suggestions.
Proof.
  repeat split. do 3 eexists. reflexivity.
Qed.

(** C4, refuted as stated: the first submission, through the SDK, is
    rejected with a message of neither retryable kind; the order is
    submitted a second time all the same, through the direct API, and the
    caller gets the success of that second submission and not the error of
    the first. *)
Lemma fatal_rejection_followed_by_second_submission :
  includes "account is not authorized to trade options" wash_trade_text = false
  /\ includes "account is not authorized to trade options" short_sell_text = false
  /\ calls_of broker paper (one_contract "buy") not_authorized_then_direct
     = [GetAccount (account not_authorized_then_direct); GetPositions (inr []);
        CreateOrder (body_of "buy_to_open")
          (inl (sdk_error "account is not authorized to trade options"));
        PostOrders paper_url (body_of "buy_to_open")
          (inr (accepted_response "904837e3"))]
  /\ success (reply_of broker paper (one_contract "buy") not_authorized_then_direct)
     = true.
Proof. repeat split. Qed.

Lemma fatal_rejection_of_direct_api_witness :
  calls_of broker paper (one_contract "buy") not_authorized
  = [GetAccount (account not_authorized); GetPositions (inr []);
     CreateOrder (body_of "buy_to_open")
       (inl (sdk_error "account is not authorized to trade options"));
     PostOrders paper_url (body_of "buy_to_open")
       (inr (rejection 403 "account is not authorized to trade options"))]
  /\ exists debug,
       reply_of broker paper (one_contract "buy") not_authorized
       = Rejected 403
           (Verbatim (Some (JStr "account is not authorized to trade options")))
           (Some (JObj [("code", JNum (40310000 # 1));
                        ("message", JStr "account is not authorized to trade options")]))
           debug suggestions.
Proof.
  split; [reflexivity|].
  destruct (fatal_rejection_of_direct_api broker paper (one_contract "buy") not_authorized
              (account not_authorized) (inr [])
              (inl (sdk_error "account is not authorized to trade options"))
              (body_of "buy_to_open") (body_of "buy_to_open") paper_url
              (rejection 403 "account is not authorized to trade options")
              (Some (JStr "account is not authorized to trade options"))
              [] eq_refl eq_refl eq_refl eq_refl eq_refl)
    as [_ (error & debug & Herror & Hreply)].
  injection Herror as <-.
  exists debug. exact Hreply.
Defined.

(** C6 on the failing input: [getPositions] fails and the request is a
    buy.  The order goes out, but the smart side stays [buy], not
    [buy_to_open], and the body submitted has the wire side [sell]. *)
Lemma failed_position_lookup_sends_buy_as_sell_witness :
  calls_of broker paper (one_contract "buy") positions_unavailable
  = [GetAccount (account positions_unavailable);
     GetPositions (inl (sdk_error "connect ETIMEDOUT"));
     CreateOrder (body_of "buy") (inr (accepted "904837e3"))]
  /\ od_side (body_of "buy") = "sell"
  /\ smart_side_of (reply_of broker paper (one_contract "buy") positions_unavailable)
     = Some "buy"
  /\ success (reply_of broker paper (one_contract "buy") positions_unavailable) = true.
Proof.
  destruct (failed_position_lookup_sends_buy_as_sell broker paper (one_contract "buy")
              positions_unavailable "MSTR250725P00150000" (SStr "1") (SStr "1.44")
              (account positions_unavailable) (inl (sdk_error "connect ETIMEDOUT"))
              [CreateOrder (body_of "buy") (inr (accepted "904837e3"))]
              eq_refl eq_refl)
    as (_ & Hfailed & _).
  destruct (Hfailed (sdk_error "connect ETIMEDOUT") eq_refl) as (Hbodies & _).
  split; [reflexivity|]. split; [|split; reflexivity].
  apply Hbodies. left. reflexivity.
Defined.

(** The same failure with a request to sell: the side is kept, and [sell]
    is what goes out. *)
Lemma position_lookup_failure_keeps_side_on_a_sell :
  calls_of broker paper (one_contract "sell") positions_unavailable
  = [GetAccount (account positions_unavailable);
     GetPositions (inl (sdk_error "connect ETIMEDOUT"));
     CreateOrder (body_of "sell") (inr (accepted "904837e3"))]
  /\ od_side (body_of "sell") = "sell"
  /\ smart_side_of (reply_of broker paper (one_contract "sell") positions_unavailable)
     = Some "sell".
Proof. repeat split. Qed.

(** C7 on the failing input: the retry after a wash-trade rejection is
    accepted.  The reply is a success, and it has no [position_info]. *)
Theorem retry_success_has_no_position_info :
  success (reply_of broker paper (one_contract "buy") wash_trade_then_accepted) = true
  /\ method_of (reply_of broker paper (one_contract "buy") wash_trade_then_accepted)
     = Some "retry_after_wash_trade"
  /\ position_info_of (reply_of broker paper (one_contract "buy") wash_trade_then_accepted)
     = KeyMissing.
Proof. repeat split. Qed.

(** C9, refuted as stated: a request for minus five contracts passes the
    validation and is submitted with [qty] minus five. *)
Lemma negative_quantity_is_submitted :
  required_fields minus_five
  = Some ("MSTR250725P00150000", "buy", SStr "-5", SStr "1.44")
  /\ (exists body,
        submissions (calls_of broker paper minus_five all_well) = [body]
        /\ od_qty body = Num (inject_Z (-5))
        /\ gt0 (od_qty body) = false)
  /\ success (reply_of broker paper minus_five all_well) = true.
Proof.
  split; [reflexivity|]. split; [|reflexivity].
  eexists. repeat split.
Qed.

Lemma validated_request_is_submitted_as_parsed_witness :
  truthy_strnum (SStr "1") = true
  /\ submissions (calls_of broker paper (one_contract "buy") all_well)
     = [body_of "buy_to_open"]
  /\ od_qty (body_of "buy_to_open") = parseInt (SStr "1")
  /\ od_limit_price (body_of "buy_to_open") = Some (toFixed2_parseFloat (SStr "1.44")).
Proof.
  destruct (validated_request_is_submitted_as_parsed broker paper (one_contract "buy")
              all_well "MSTR250725P00150000" "buy" (SStr "1") (SStr "1.44") eq_refl)
    as (Hq & _ & Hbodies).
  split; [exact Hq|]. split; [reflexivity|].
  apply Hbodies. left. reflexivity.
Defined.

(* ===================================================================== *)
(** ** Properties: option symbols                                         *)
(* ===================================================================== *)

Import OptionSymbol.

Lemma take_digits_split (n : nat) (s rest : string) :
  take_digits n s = Some rest ->
  exists d, s = (d ++ rest)%string /\ String.length d = n /\ all_digits d = true.
Proof.
  revert s. induction n as [|n IH]; intros s H; simpl in H.
  - injection H as <-. exists EmptyString. repeat split.
  - destruct s as [|c s']; [discriminate|].
    destruct (is_digit c) eqn:Ec; [|discriminate].
    destruct (IH s' H) as (d & -> & Hlen & Hd).
    exists (String c d). unfold all_digits in *. simpl. rewrite Ec, Hlen, Hd. auto.
Qed.

Lemma take_digits_app (d rest : string) :
  all_digits d = true -> take_digits (String.length d) (d ++ rest) = Some rest.
Proof.
  unfold all_digits. induction d as [|c d IH]; simpl; intros H; [reflexivity|].
  apply andb_true_iff in H as [Hc Hd]. rewrite Hc. auto.
Qed.

Lemma skip_upper_split (s : string) :
  exists p, s = (p ++ skip_upper s)%string /\ all_upper p = true.
Proof.
  induction s as [|c s IH]; simpl.
  - exists EmptyString. split; reflexivity.
  - destruct (is_upper c) eqn:Ec.
    + destruct IH as (p & Hs & Hp). exists (String c p). split.
      * simpl. now rewrite <- Hs.
      * unfold all_upper in *. simpl. now rewrite Ec, Hp.
    + exists EmptyString. split; reflexivity.
Qed.

Lemma digit_not_upper (c : ascii) : is_digit c = true -> is_upper c = false.
Proof.
  unfold is_digit, is_upper. intros H.
  apply andb_true_iff in H as [_ H]. apply Nat.leb_le in H.
  apply andb_false_iff. left. apply Nat.leb_gt. lia.
Qed.

Lemma skip_upper_app (p q : string) (c : ascii) :
  all_upper p = true -> is_upper c = false ->
  skip_upper (p ++ String c q) = String c q.
Proof.
  unfold all_upper. induction p as [|a p IH]; simpl; intros Hp Hc.
  - now rewrite Hc.
  - apply andb_true_iff in Hp as [Ha Hp]. rewrite Ha. auto.
Qed.

Lemma append_empty (s : string) : (s ++ "")%string = s.
Proof. induction s as [|c s IH]; simpl; [reflexivity|now rewrite IH]. Qed.

Lemma length_append (a b : string) :
  String.length (a ++ b) = (String.length a + String.length b)%nat.
Proof. induction a as [|c a IH]; simpl; [reflexivity|now rewrite IH]. Qed.

Lemma matches_gives_shape (s : string) :
  matches_option_pattern s = true -> option_symbol_shape s.
Proof.
  unfold matches_option_pattern. destruct s as [|c s']; [discriminate|].
  intros H. apply andb_true_iff in H as [Hc H].
  destruct (take_digits 6 (skip_upper s')) as [[|t rest]|] eqn:Hdate; try discriminate.
  apply andb_true_iff in H as [Ht H].
  destruct (take_digits 8 rest) as [[|x y]|] eqn:Hstrike; try discriminate.
  destruct (skip_upper_split s') as (p & Hs' & Hp).
  destruct (take_digits_split _ _ _ Hdate) as (date & Hd & Hdl & Hdd).
  destruct (take_digits_split _ _ _ Hstrike) as (strike & Hk & Hkl & Hkd).
  exists (String c p), date, strike, t. repeat split.
  - simpl. f_equal. rewrite Hs' at 1. rewrite Hd, Hk, append_empty. reflexivity.
  - discriminate.
  - unfold all_upper in *. simpl. now rewrite Hc, Hp.
  - exact Hdl.
  - exact Hdd.
  - apply orb_true_iff in Ht as [Ht | Ht]; apply Ascii.eqb_eq in Ht; auto.
  - exact Hkl.
  - exact Hkd.
Qed.

Lemma date_after_root (root date rest : string) :
  all_upper root = true -> String.length date = 6%nat -> all_digits date = true ->
  take_digits 6 (skip_upper (root ++ date ++ rest)) = Some rest.
Proof.
  intros Hup Hdl Hdd.
  assert (Htake : take_digits 6 (date ++ rest) = Some rest)
    by (rewrite <- Hdl; apply take_digits_app, Hdd).
  destruct date as [|d date]; [discriminate Hdl|].
  assert (Hd : is_digit d = true).
  { unfold all_digits in Hdd. simpl in Hdd. now apply andb_true_iff in Hdd as [? _]. }
  change (String d date ++ rest)%string with (String d (date ++ rest)) in *.
  now rewrite (skip_upper_app root _ d Hup (digit_not_upper d Hd)).
Qed.

Lemma shape_gives_matches (s : string) :
  option_symbol_shape s -> matches_option_pattern s = true.
Proof.
  intros (root & date & strike & kind & -> & Hroot & Hup & Hdl & Hdd & Hkind & Hkl & Hkd).
  destruct root as [|c root]; [now elim Hroot|].
  unfold all_upper in Hup. simpl in Hup. apply andb_true_iff in Hup as [Hc Hup].
  unfold matches_option_pattern.
  change (String c root ++ date ++ String kind strike)%string
    with (String c (root ++ date ++ String kind strike)).
  cbv beta iota.
  rewrite Hc, (date_after_root root date _ Hup Hdl Hdd).
  replace ((kind =? "C")%char || (kind =? "P")%char) with true
    by (destruct Hkind as [-> | ->]; reflexivity).
  assert (Htake : take_digits 8 strike = Some EmptyString).
  { rewrite <- (append_empty strike) at 1. rewrite <- Hkl. apply take_digits_app, Hkd. }
  now rewrite Htake.
Qed.

(** X1.  The pattern of an option symbol holds for a string exactly when it is
    made of capital letters, at least one, six digits, [C] or [P], and
    eight digits. *)
Theorem option_pattern_is_root_date_kind_strike (s : string) :
  matches_option_pattern s = true <-> option_symbol_shape s.
Proof.
  split; [apply matches_gives_shape | apply shape_gives_matches].
Qed.

Lemma shape_length (s : string) :
  option_symbol_shape s -> (16 <= String.length s)%nat.
Proof.
  intros (root & date & strike & kind & -> & Hroot & _ & Hdl & _ & _ & Hkl & _).
  rewrite !length_append. simpl. rewrite Hdl, Hkl.
  destruct root; [now elim Hroot|]. simpl. lia.
Qed.

(** X2.  A string that matches the pattern has sixteen characters or more, so
    the test [symbol.length > 10] in front of the pattern never decides:
    [isOptionsSymbol] is the pattern alone. *)
Theorem length_test_never_decides (symbol : string) :
  isOptionsSymbol symbol = matches_option_pattern symbol
  /\ (matches_option_pattern symbol = true -> (16 <= String.length symbol)%nat).
Proof.
  assert (H : matches_option_pattern symbol = true -> (16 <= String.length symbol)%nat).
  { intros Hm. apply shape_length, matches_gives_shape, Hm. }
  split; [|exact H].
  unfold isOptionsSymbol. destruct (matches_option_pattern symbol) eqn:Hm.
  - rewrite andb_true_r. apply Nat.ltb_lt. specialize (H eq_refl). lia.
  - apply andb_false_r.
Qed.

Lemma upper_fixed_on_upper (c : ascii) : is_upper c = true -> upper_ascii c = c.
Proof.
  unfold is_upper, upper_ascii. intros H.
  apply andb_true_iff in H as [_ H]. apply Nat.leb_le in H.
  replace (Nat.leb 97 (nat_of_ascii c)) with false; [reflexivity|].
  symmetry. apply Nat.leb_gt. lia.
Qed.

Lemma upper_fixed_on_digit (c : ascii) : is_digit c = true -> upper_ascii c = c.
Proof.
  unfold is_digit, upper_ascii. intros H.
  apply andb_true_iff in H as [_ H]. apply Nat.leb_le in H.
  replace (Nat.leb 97 (nat_of_ascii c)) with false; [reflexivity|].
  symmetry. apply Nat.leb_gt. lia.
Qed.

Lemma toUpperCase_app (a b : string) :
  toUpperCase (a ++ b) = (toUpperCase a ++ toUpperCase b)%string.
Proof. induction a as [|c a IH]; simpl; [reflexivity|now rewrite IH]. Qed.

Lemma toUpperCase_all_upper (s : string) : all_upper s = true -> toUpperCase s = s.
Proof.
  unfold all_upper. induction s as [|c s IH]; simpl; intros H; [reflexivity|].
  apply andb_true_iff in H as [Hc Hs]. now rewrite (upper_fixed_on_upper c Hc), IH.
Qed.

Lemma toUpperCase_all_digits (s : string) : all_digits s = true -> toUpperCase s = s.
Proof.
  unfold all_digits. induction s as [|c s IH]; simpl; intros H; [reflexivity|].
  apply andb_true_iff in H as [Hc Hs]. now rewrite (upper_fixed_on_digit c Hc), IH.
Qed.

Lemma matches_is_upper_case (s : string) :
  matches_option_pattern s = true -> toUpperCase s = s.
Proof.
  intros H. apply matches_gives_shape in H.
  destruct H as (root & date & strike & kind & -> & _ & Hup & _ & Hdd & Hkind & _ & Hkd).
  rewrite !toUpperCase_app. simpl.
  rewrite (toUpperCase_all_upper _ Hup), (toUpperCase_all_digits _ Hdd),
    (toUpperCase_all_digits _ Hkd).
  destruct Hkind as [-> | ->]; reflexivity.
Qed.

Example option_symbol_samples :
  isOptionsSymbol "MSTR250725P00150000" = true
  /\ isOptionsSymbol "AAPL" = false
  /\ isOptionsSymbol "mstr250725p00150000" = false
  /\ isOptionsSymbol "MSTR250725X00150000" = false
  /\ isOptionsSymbol "MSTR250725P001500000" = false
  /\ isOptionsSymbol "250725P00150000" = false.
Proof. repeat split. Qed.

(* ===================================================================== *)
(** ** Properties: [POST /api/orders]                                     *)
(* ===================================================================== *)

Import StockOrder.

Lemma required_fields_some (req : order_request)
    (symbol side : string) (quantity price : strnum) :
  required_fields req = Some (symbol, side, quantity, price) ->
  req_symbol req = Some symbol /\ req_side req = Some side.
Proof.
  unfold required_fields.
  destruct (req_symbol req), (req_side req), (req_quantity req), (req_price req);
    try discriminate.
  destruct (_ || _); [discriminate|].
  intros H. injection H as <- <- <- <-. auto.
Qed.

Lemma bad_side_true (side : string) :
  side <> "buy" -> side <> "sell" -> bad_side side = true.
Proof.
  intros Hb Hs. unfold bad_side.
  apply String.eqb_neq in Hb, Hs. now rewrite Hb, Hs.
Qed.

Lemma bad_side_false (side : string) :
  side = "buy" \/ side = "sell" -> bad_side side = false.
Proof. intros [-> | ->]; reflexivity. Qed.

(** X3.  A request with a field missing, with an option symbol, or with a side
    that is not exactly [buy] or [sell] is answered with status 400, and
    nothing is sent to the broker. *)
Theorem stock_order_refused_before_any_call (B : Broker) (req : order_request)
    (w : World B) :
  (req_symbol req = None \/ req_side req = None
   \/ req_quantity req = None \/ req_price req = None)
  \/ (exists symbol, req_symbol req = Some symbol /\ isOptionsSymbol symbol = true)
  \/ (exists side, req_side req = Some side /\ side <> "buy" /\ side <> "sell") ->
  exists reply,
    post_api_orders B req w = (reply, w, []) /\ is_400 reply = true.
Proof.
  intros H. unfold post_api_orders.
  destruct (required_fields req) as [[[[symbol side] quantity] price]|] eqn:Hreq.
  2:{ exists OrderMissingFields. split; reflexivity. }
  destruct (required_fields_some _ _ _ _ _ Hreq) as [Hsym Hside].
  destruct (isOptionsSymbol symbol) eqn:Hopt.
  { exists (OrderIsOption symbol). split; reflexivity. }
  destruct (bad_side side) eqn:Hbad.
  { exists OrderBadSide. split; reflexivity. }
  exfalso. destruct H as [H | [(s & Hs & Ho) | (s & Hs & Hb & Hl)]].
  - unfold required_fields in Hreq.
    destruct H as [H | [H | [H | H]]]; rewrite H in Hreq;
      destruct (req_symbol req), (req_side req), (req_quantity req), (req_price req);
      discriminate.
  - congruence.
  - rewrite Hside in Hs. injection Hs as <-.
    rewrite (bad_side_true side Hb Hl) in Hbad. discriminate.
Qed.


(** X5.  The option gate reads the symbol as it was sent, the order carries it
    in upper case: a symbol that is not in upper case is never taken for an
    option symbol, whatever it is once in upper case. *)
Theorem symbol_not_in_upper_case_passes_option_gate (B : Broker)
    (req : order_request) (w : World B)
    (symbol side : string) (quantity price : strnum) :
  required_fields req = Some (symbol, side, quantity, price) ->
  toUpperCase symbol <> symbol ->
  side = "buy" \/ side = "sell" ->
  isOptionsSymbol symbol = false
  /\ exists a,
       snd (post_api_orders B req w)
       = [CreateOrder (stock_orderData symbol quantity price (orderType_of req) side) a]
       /\ od_symbol (stock_orderData symbol quantity price (orderType_of req) side)
          = toUpperCase symbol.
Proof.
  intros Hreq Hcase Hside.
  assert (Hopt : isOptionsSymbol symbol = false).
  { unfold isOptionsSymbol. destruct (matches_option_pattern symbol) eqn:Hm.
    - elim Hcase. apply matches_is_upper_case, Hm.
    - apply andb_false_r. }
  split; [exact Hopt|].
  unfold post_api_orders. rewrite Hreq, Hopt, (bad_side_false side Hside).
  destruct (createOrder B _ w) as [a w'].
  exists a. split; [|reflexivity].
  destruct a as [e | order]; [reflexivity|].
  destruct (fields_of (Some order)); reflexivity.
Qed.

(* ===================================================================== *)
(** ** Properties: [GET /api/positions]                                   *)
(* ===================================================================== *)

Import Alpaca Positions.

Lemma option_symbol_not_empty (symbol : string) :
  isOptionsSymbol symbol = true -> truthy_string symbol = true.
Proof.
  unfold isOptionsSymbol. intros H. apply andb_true_iff in H as [H _].
  destruct symbol; [discriminate H|reflexivity].
Qed.

(** X6.  For an option symbol the broker is not asked: the reply is a success
    with no position. *)
Theorem option_symbol_position_without_call (api : Api) (symbol : string)
    (s : State api) :
  isOptionsSymbol symbol = true ->
  get_api_positions api (Some symbol) s = (OptionsHandledSeparately, s, []).
Proof.
  intros H. unfold get_api_positions, positions_body.
  now rewrite (option_symbol_not_empty symbol H), H.
Qed.

(** X7.  For a symbol that is no option symbol the handler asks the broker
    once and never answers with the failure reply: when that call fails, or
    gives [null], the reply is a success with no position. *)
Theorem position_query_always_succeeds (api : Api) (symbol : string) (s : State api) :
  symbol <> "" ->
  isOptionsSymbol symbol = false ->
  exists a s' position,
    getPosition api symbol s = (a, s')
    /\ get_api_positions api (Some symbol) s
       = (OnePosition position, s', [GetPosition symbol a])
    /\ (position = None <-> (exists e, a = inl e) \/ a = inr JNull).
Proof.
  intros Hne Hopt. unfold get_api_positions, positions_body.
  assert (Ht : truthy_string symbol = true).
  { unfold truthy_string. apply String.eqb_neq in Hne. now rewrite Hne. }
  rewrite Ht, Hopt. unfold attempt, and_then, request, of_answer, unit_, raise.
  destruct (getPosition api symbol s) as [[e | position] s'] eqn:Hcall.
  - exists (inl e), s', None. repeat split; eauto.
  - destruct (position_fields_of position) as [e | fields] eqn:Hf.
    + exists (inr position), s', None. repeat split; auto.
      intros _. right. f_equal.
      unfold position_fields_of in Hf. destruct position; simpl in Hf; congruence.
    + exists (inr position), s', (Some fields). repeat split; try discriminate.
      intros [(e & He) | He]; [discriminate He|].
      injection He as ->. discriminate Hf.
Qed.

(* ===================================================================== *)
(** ** Properties: [DELETE /api/orders]                                   *)
(* ===================================================================== *)

Import CancelAll.

Lemma cancel_calls_app (l1 l2 : list Call) :
  cancel_calls (l1 ++ l2) = (cancel_calls l1 ++ cancel_calls l2)%list.
Proof.
  induction l1 as [|c l1 IH]; simpl; [reflexivity|].
  destruct c; simpl; now rewrite ?IH.
Qed.

Lemma cancelled_count_app (l1 l2 : list cancel_result) :
  cancelled_count (l1 ++ l2) = (cancelled_count l1 + cancelled_count l2)%nat.
Proof. unfold cancelled_count. now rewrite filter_app, length_app. Qed.

(** One round of the loop on an order that is not [null]: one cancel call
    with the id of the order, and one result that says how it went. *)
Lemma cancel_one_run (api : Api) (order : json) (s : State api) (log : list Call) :
  order <> JNull ->
  exists a s',
    cancelOrder api (id_of order) s = (a, s')
    /\ exists r,
         cancel_one api order s log
         = (inr r, s', (log ++ [CancelOrder (id_of order) a])%list)
         /\ cr_id r = id_of order
         /\ cr_status r = status_of (match a with inr _ => true | inl _ => false end).
Proof.
  intros Hnull. unfold cancel_one, attempt, and_then, request, of_answer, unit_, raise,
    result_of, id_of.
  destruct order; try (now elim Hnull); cbn [get];
    match goal with
    | |- context [cancelOrder api ?i s] =>
        destruct (cancelOrder api i s) as [[e | []] s'] eqn:Hcall
    end;
    eexists; eexists; (split; [reflexivity|]);
    eexists; (split; [reflexivity|]); split; reflexivity.
Qed.

Lemma cancel_each_run (api : Api) (orders : list json) :
  Forall (fun order => order <> JNull) orders ->
  forall (cancelResults : list cancel_result) (s : State api) (log : list Call),
  exists results s' calls,
    cancel_each api orders cancelResults s log
    = (inr (cancelResults ++ results)%list, s', (log ++ calls)%list)
    /\ length calls = length orders
    /\ map fst (cancel_calls calls) = map id_of orders
    /\ map cr_id results = map id_of orders
    /\ map cr_status results = map (fun c => status_of (snd c)) (cancel_calls calls).
Proof.
  induction 1 as [|order orders Hnull _ IH]; intros cancelResults s log.
  - exists [], s, []. simpl. unfold unit_. now rewrite !app_nil_r.
  - destruct (cancel_one_run api order s log Hnull)
      as (a & s1 & _ & r & Hone & Hid & Hstatus).
    destruct (IH (cancelResults ++ [r])%list s1 (log ++ [CancelOrder (id_of order) a])%list)
      as (results & s' & calls & Heach & Hlen & Hids & Hrids & Hst).
    exists (r :: results), s', (CancelOrder (id_of order) a :: calls).
    simpl. unfold and_then. rewrite Hone, Heach.
    rewrite <- !app_assoc. simpl.
    repeat split; congruence.
Qed.

Lemma cancelled_count_by_status (results : list cancel_result) (went : list bool) :
  map cr_status results = map status_of went ->
  cancelled_count results = length (filter (fun b => b) went).
Proof.
  revert went. induction results as [|r results IH]; intros [|b went] H;
    try discriminate; [reflexivity|].
  simpl in H. injection H as Hr Hrest.
  unfold cancelled_count in *. simpl. rewrite Hr.
  destruct b; simpl; now rewrite (IH went Hrest).
Qed.

Lemma cancel_one_log (api : Api) (order : json) (s : State api) (log : list Call) :
  exists calls, snd (cancel_one api order s log) = (log ++ calls)%list.
Proof.
  unfold cancel_one, attempt, and_then, request, of_answer, unit_, raise.
  destruct (get (Some order) "id") as [e | id].
  - destruct (result_of order "failed_to_cancel");
      exists []; now rewrite app_nil_r.
  - destruct (cancelOrder api id s) as [[e | []] s'].
    + destruct (result_of order "failed_to_cancel"); eexists; reflexivity.
    + destruct (result_of order "cancelled") eqn:Hr; [|eexists; reflexivity].
      destruct (result_of order "failed_to_cancel"); eexists; reflexivity.
Qed.

Lemma cancel_each_log (api : Api) (orders : list json) :
  forall (cancelResults : list cancel_result) (s : State api) (log : list Call),
  exists calls, snd (cancel_each api orders cancelResults s log) = (log ++ calls)%list.
Proof.
  induction orders as [|order orders IH]; intros cancelResults s log; simpl.
  - exists []. now rewrite app_nil_r.
  - unfold and_then.
    destruct (cancel_one_log api order s log) as (calls1 & H1).
    destruct (cancel_one api order s log) as [[[e | r] s1] log1]; simpl in H1; subst log1.
    + now exists calls1.
    + destruct (IH (cancelResults ++ [r])%list s1 (log ++ calls1)%list) as (calls2 & H2).
      exists (calls1 ++ calls2)%list. now rewrite H2, app_assoc.
Qed.

Lemma delete_api_orders_run (api : Api) (s : State api) (orders : list json)
    (rest : list Call) :
  snd (delete_api_orders api s) = GetOrders open_orders (inr orders) :: rest ->
  Forall (fun order => order <> JNull) orders ->
  exists results,
    fst (fst (delete_api_orders api s))
    = CancelledOrders (cancelled_count results) results
    /\ length rest = length orders
    /\ map fst (cancel_calls rest) = map id_of orders
    /\ map cr_id results = map id_of orders
    /\ map cr_status results = map (fun c => status_of (snd c)) (cancel_calls rest).
Proof.
  unfold delete_api_orders, cancel_all_body, and_then, request, unit_.
  destruct (getOrders api open_orders s) as [[e | fetched] s0] eqn:Hget;
    cbn [fst snd app].
  - intros H. discriminate H.
  - intros Hlog Hnull.
    assert (fetched = orders) as ->.
    { destruct (cancel_each_log api fetched [] s0
                  [GetOrders open_orders (@inr exn _ fetched)]) as (calls & Hcalls).
      destruct (cancel_each api fetched [] s0 _) as [[[e | r] s1] log1];
        cbn [fst snd] in Hcalls, Hlog; rewrite Hcalls in Hlog;
        cbn [app] in Hlog; now injection Hlog. }
    destruct (cancel_each_run api orders Hnull [] s0
                [GetOrders open_orders (@inr exn _ orders)])
      as (results & s' & calls & Heach & Hlen & Hids & Hrids & Hst).
    rewrite Heach in *. cbn [fst snd app] in *.
    injection Hlog as ->.
    exists results. repeat split; assumption.
Qed.

(** X8.  Every open order gets its cancel call, one each and in the order of
    the list, whether or not the calls before it went through. *)
Theorem cancel_all_tries_every_order (api : Api) (s : State api) (orders : list json)
    (rest : list Call) :
  snd (delete_api_orders api s) = GetOrders open_orders (inr orders) :: rest ->
  Forall (fun order => order <> JNull) orders ->
  length rest = length orders
  /\ map fst (cancel_calls rest) = map id_of orders.
Proof.
  intros Hlog Hnull.
  destruct (delete_api_orders_run api s orders rest Hlog Hnull)
    as (results & _ & Hlen & Hids & _).
  now split.
Qed.

(** X9.  The reply is a success whatever the cancel calls gave.  It lists one
    result for each order, in order, marked [cancelled] exactly when the
    call for that order went through, and the count in its message is the
    number of calls that went through. *)
Theorem cancel_all_reports_each_order (api : Api) (s : State api) (orders : list json)
    (rest : list Call) :
  snd (delete_api_orders api s) = GetOrders open_orders (inr orders) :: rest ->
  Forall (fun order => order <> JNull) orders ->
  exists count results,
    fst (fst (delete_api_orders api s)) = CancelledOrders count results
    /\ map cr_id results = map id_of orders
    /\ map cr_status results = map (fun c => status_of (snd c)) (cancel_calls rest)
    /\ count = length (filter (fun c => snd c) (cancel_calls rest))
    /\ (count <= length orders)%nat.
Proof.
  intros Hlog Hnull.
  destruct (delete_api_orders_run api s orders rest Hlog Hnull)
    as (results & Hreply & Hlen & Hids & Hrids & Hst).
  exists (cancelled_count results), results.
  assert (Hcount : cancelled_count results
                   = length (filter (fun c => snd c) (cancel_calls rest))).
  { rewrite (cancelled_count_by_status results (map snd (cancel_calls rest))).
    - clear. induction (cancel_calls rest) as [|c l IH]; simpl; [reflexivity|].
      destruct (snd c); simpl; now rewrite IH.
    - now rewrite Hst, map_map. }
  repeat split; try assumption.
  rewrite Hcount.
  assert (Hl : length (cancel_calls rest) = length orders)
    by (rewrite <- (length_map fst), Hids; apply length_map).
  rewrite <- Hl. apply filter_length_le.
Qed.

(** When the list of open orders cannot be had, nothing is cancelled. *)
Lemma cancel_all_without_orders (api : Api) (s : State api) (e : exn) (s' : State api) :
  getOrders api open_orders s = (inl e, s') ->
  delete_api_orders api s = (CancelFailed e, s', [GetOrders open_orders (inl e)]).
Proof.
  intros H. unfold delete_api_orders, cancel_all_body, and_then, request.
  now rewrite H.
Qed.

(* ===================================================================== *)
(** ** Properties: [GET /api/options/expirations/:symbol]                 *)
(* ===================================================================== *)

Import Expirations.

Lemma in_add (set : list string) (x y : string) :
  In y (add set x) <-> y = x \/ In y set.
Proof.
  unfold add. destruct (existsb (String.eqb x) set) eqn:E.
  - split; [auto|]. intros [-> | H]; [|exact H].
    apply existsb_exists in E as (z & Hz & Hxz). apply String.eqb_eq in Hxz. now subst.
  - rewrite in_app_iff. simpl. intuition.
Qed.

Lemma nodup_add (set : list string) (x : string) : NoDup set -> NoDup (add set x).
Proof.
  intros H. unfold add. destruct (existsb (String.eqb x) set) eqn:E; [exact H|].
  apply NoDup_app; [exact H | repeat constructor; intros [] |].
  intros y Hy [Hxy | []]. subst y.
  assert (existsb (String.eqb x) set = true); [|congruence].
  apply existsb_exists. exists x. split; [exact Hy | apply String.eqb_refl].
Qed.

Lemma in_fold_add (xs set : list string) (y : string) :
  In y (fold_left add xs set) <-> In y xs \/ In y set.
Proof.
  revert set. induction xs as [|x xs IH]; intros set; simpl.
  - intuition.
  - rewrite IH, in_add. intuition.
Qed.

Lemma nodup_fold_add (xs set : list string) :
  NoDup set -> NoDup (fold_left add xs set).
Proof.
  revert set. induction xs as [|x xs IH]; intros set H; simpl; [exact H|].
  apply IH, nodup_add, H.
Qed.

Lemma insert_perm (x : string) (l : list string) :
  Permutation (Expirations.insert x l) (x :: l).
Proof.
  induction l as [|y l IH]; simpl; [reflexivity|].
  destruct (String.leb x y); [reflexivity|].
  rewrite IH. apply perm_swap.
Qed.

Lemma sort_perm (l : list string) : Permutation (Expirations.sort l) l.
Proof.
  induction l as [|x l IH]; simpl; [reflexivity|].
  rewrite insert_perm. now constructor.
Qed.

Lemma insert_not_after (x : string) (l : list string) :
  Sorted not_after l -> Sorted not_after (Expirations.insert x l).
Proof.
  induction 1 as [|y l Hs IH Hhd]; simpl.
  - repeat constructor.
  - destruct (String.leb x y) eqn:E.
    + repeat constructor; assumption.
    + constructor; [exact IH|].
      assert (Hyx : not_after y x).
      { destruct (String.leb_total x y) as [H | H]; [congruence|exact H]. }
      destruct Hhd as [|z l' Hyz]; simpl; [now constructor|].
      destruct (String.leb x z); now constructor.
Qed.

Lemma sort_not_after (l : list string) : Sorted not_after (Expirations.sort l).
Proof.
  induction l as [|x l IH]; simpl; [constructor|]. apply insert_not_after, IH.
Qed.

Lemma not_after_distinct (a b : string) : not_after a b -> a <> b -> before a b.
Proof.
  unfold not_after, before, String.leb, String.ltb. intros H Hne.
  destruct (String.compare a b) eqn:E; try reflexivity; try discriminate.
  apply String.compare_eq_iff in E. contradiction.
Qed.

Lemma sorted_nodup_strict (l : list string) :
  Sorted not_after l -> NoDup l -> Sorted before l.
Proof.
  induction 1 as [|a l Hs IH Hhd]; intros Hnd; [constructor|].
  inversion Hnd as [|? ? Hnotin Hnd']; subst.
  constructor; [apply IH, Hnd'|].
  destruct Hhd as [|b l' Hab]; constructor.
  apply not_after_distinct; [exact Hab|].
  intros ->. apply Hnotin. now left.
Qed.

Lemma sortedExpirations_strict (contracts : list Contract) :
  Sorted before (sortedExpirations contracts) /\ NoDup (sortedExpirations contracts).
Proof.
  unfold sortedExpirations.
  assert (Hnd : NoDup (Expirations.sort
                         (fold_left add (map ct_expiration_date contracts) []))).
  { eapply Permutation_NoDup; [symmetry; apply sort_perm|].
    apply nodup_fold_add. constructor. }
  split; [|exact Hnd].
  apply sorted_nodup_strict; [apply sort_not_after | exact Hnd].
Qed.

Lemma sortedExpirations_members (contracts : list Contract) (date : string) :
  In date (sortedExpirations contracts)
  <-> exists c, In c contracts /\ ct_expiration_date c = date.
Proof.
  unfold sortedExpirations. split.
  - intros H. apply (Permutation_in _ (sort_perm _)) in H.
    apply in_fold_add in H as [H | []].
    apply in_map_iff in H as (c & Hc & Hin). now exists c.
  - intros (c & Hin & Hc).
    apply (Permutation_in _ (Permutation_sym (sort_perm _))).
    apply in_fold_add. left. apply in_map_iff. now exists c.
Qed.

(** X10.  Whenever the route answers with expiration dates, they are in strictly
    ascending order, so each date is listed once, and the symbol is given
    back in upper case. *)
Theorem expirations_sorted_without_repeats (api : Api) (symbol : string)
    (s : State api) (sym : string) (dates : list string) :
  fst (fst (get_api_options_expirations api symbol s)) = ExpirationsOf sym dates ->
  sym = toUpperCase symbol /\ Sorted before dates /\ NoDup dates.
Proof.
  unfold get_api_options_expirations, expirations_body, and_then, request, of_answer,
    unit_, raise.
  destruct (fetch_contracts api _ s) as [[e | response] s'];
    cbn [fst]; [discriminate|].
  destruct (negb (resp_ok response)); cbn [fst]; [discriminate|].
  destruct (option_contracts_of response) as [e | [contracts|]];
    cbn [fst]; try discriminate;
    intros H; injection H as <- <-; (split; [reflexivity|]).
  - apply sortedExpirations_strict.
  - split; constructor.
Qed.

(** X11.  The dates in the reply are the expiration dates of the contracts the
    broker sent: every one of them, and no other. *)
Theorem expirations_are_those_of_the_contracts (api : Api) (symbol : string)
    (s : State api) (url : string) (response : contracts_response)
    (contracts : list Contract) :
  snd (get_api_options_expirations api symbol s) = [FetchContracts url (inr response)] ->
  resp_ok response = true ->
  resp_data response = Some (DataWith contracts) ->
  exists dates,
    fst (fst (get_api_options_expirations api symbol s))
    = ExpirationsOf (toUpperCase symbol) dates
    /\ forall date,
         In date dates <-> exists c, In c contracts /\ ct_expiration_date c = date.
Proof.
  unfold get_api_options_expirations, expirations_body, and_then, request, of_answer,
    unit_, raise.
  destruct (fetch_contracts api _ s) as [[e | fetched] s'];
    cbn [fst snd app]; [discriminate|].
  intros Hlog Hok Hdata.
  destruct (negb (resp_ok fetched)) eqn:Hnot;
    [|destruct (option_contracts_of fetched) as [e | option_contracts] eqn:Hoc];
    cbn [fst snd app] in *;
    (assert (fetched = response) as -> by congruence).
  - rewrite Hok in Hnot. discriminate Hnot.
  - unfold option_contracts_of in Hoc. rewrite Hdata in Hoc. discriminate Hoc.
  - unfold option_contracts_of in Hoc. rewrite Hdata in Hoc. injection Hoc as <-.
    exists (sortedExpirations contracts). split; [reflexivity|].
    apply sortedExpirations_members.
Qed.

(* ===================================================================== *)
(** ** Properties: [GET /api/options/all/:symbol]                         *)
(* ===================================================================== *)

Import AllOptions.

Lemma lookup_app_absent (key k : string) (entries : list option_entry) (o : groups) :
  lookup key o = None ->
  lookup k (o ++ [(key, entries)])%list
  = if (k =? key)%string then Some entries else lookup k o.
Proof.
  induction o as [|[k' x] o IH]; simpl; intros H.
  - reflexivity.
  - destruct (String.eqb_spec key k') as [->|Hne]; [discriminate|].
    destruct (String.eqb_spec k k') as [->|Hk].
    + destruct (String.eqb_spec k' key) as [->|_]; [now elim Hne|reflexivity].
    + apply IH, H.
Qed.

Lemma lookup_insert_index_absent (n : Z) (key k : string)
    (entries : list option_entry) (o : groups) :
  lookup key o = None ->
  lookup k (insert_index n key entries o)
  = if (k =? key)%string then Some entries else lookup k o.
Proof.
  induction o as [|[k' x] o IH]; simpl; intros H.
  - reflexivity.
  - destruct (String.eqb_spec key k') as [->|Hne]; [discriminate|].
    destruct (array_index k') as [m|]; [destruct (m <? n)|]; simpl;
      try reflexivity.
    rewrite (IH H).
    destruct (String.eqb_spec k k') as [->|Hk]; [|reflexivity].
    destruct (String.eqb_spec k' key) as [->|_]; [now elim Hne|reflexivity].
Qed.

Lemma lookup_add_key (key k : string) (entries : list option_entry) (o : groups) :
  lookup key o = None ->
  lookup k (add_key key entries o)
  = if (k =? key)%string then Some entries else lookup k o.
Proof.
  intros H. unfold add_key. destruct (array_index key).
  - apply lookup_insert_index_absent, H.
  - apply lookup_app_absent, H.
Qed.

Lemma lookup_push_to (key k : string) (entry : option_entry) (o : groups) :
  lookup k (push_to key entry o)
  = if (k =? key)%string
    then option_map (fun entries => entries ++ [entry])%list (lookup key o)
    else lookup k o.
Proof.
  induction o as [|[k' x] o IH]; simpl.
  - now destruct (k =? key)%string.
  - destruct (String.eqb_spec key k') as [->|Hne]; simpl.
    + destruct (String.eqb_spec k k'); reflexivity.
    + rewrite IH.
      destruct (String.eqb_spec k k') as [->|Hk]; [|reflexivity].
      destruct (String.eqb_spec k' key) as [->|_]; [now elim Hne|reflexivity].
Qed.

Lemma group_all_lookup (contracts : list Contract) :
  forall (o o' : groups),
  group_all o contracts = inr o' ->
  forall date, lookup date o' = joined (lookup date o) (expiring date contracts).
Proof.
  induction contracts as [|c contracts IH]; intros o o' H date; simpl in H.
  - injection H as <-. unfold expiring. simpl.
    destruct (lookup date o); simpl; now rewrite ?app_nil_r.
  - destruct (group_one o c) as [e | o1] eqn:Hone; [discriminate|].
    rewrite (IH o1 o' H date). clear IH H.
    unfold group_one in Hone.
    destruct (is_inherited (ct_expiration_date c)); [discriminate|].
    unfold expiring. simpl.
    destruct (lookup (ct_expiration_date c) o) as [entries|] eqn:Hfound;
      injection Hone as <-.
    + rewrite lookup_push_to, String.eqb_sym.
      destruct (String.eqb_spec (ct_expiration_date c) date) as [<-|Hne]; simpl.
      * rewrite Hfound. simpl. now rewrite <- app_assoc.
      * reflexivity.
    + rewrite (lookup_add_key _ _ _ _ Hfound), String.eqb_sym.
      destruct (String.eqb_spec (ct_expiration_date c) date) as [<-|Hne]; simpl.
      * now rewrite Hfound.
      * reflexivity.
Qed.

Lemma lookup_sort_groups (key : string) (o : groups) :
  lookup key (sort_groups o) = option_map sort_by_strike (lookup key o).
Proof.
  induction o as [|[k x] o IH]; simpl; [reflexivity|].
  destruct (key =? k)%string; [reflexivity|exact IH].
Qed.

Lemma insert_by_strike_perm (entry : option_entry) (l : list option_entry) :
  Permutation (insert_by_strike entry l) (entry :: l).
Proof.
  induction l as [|e l IH]; simpl; [reflexivity|].
  destruct (Qle_bool (op_strike entry) (op_strike e)); [reflexivity|].
  rewrite IH. apply perm_swap.
Qed.

Lemma sort_by_strike_perm (l : list option_entry) : Permutation (sort_by_strike l) l.
Proof.
  induction l as [|x l IH]; simpl; [reflexivity|].
  rewrite insert_by_strike_perm. now constructor.
Qed.

Lemma insert_by_strike_sorted (entry : option_entry) (l : list option_entry) :
  Sorted strike_not_above l -> Sorted strike_not_above (insert_by_strike entry l).
Proof.
  induction 1 as [|e l Hs IH Hhd]; simpl.
  - repeat constructor.
  - destruct (Qle_bool (op_strike entry) (op_strike e)) eqn:E.
    + apply Qle_bool_iff in E. repeat constructor; assumption.
    + constructor; [exact IH|].
      assert (He : strike_not_above e entry).
      { unfold strike_not_above. apply Qlt_le_weak, Qnot_le_lt.
        intros Hle. apply Qle_bool_iff in Hle. congruence. }
      destruct Hhd as [|z l' Hez]; simpl; [now constructor|].
      destruct (Qle_bool (op_strike entry) (op_strike z)); now constructor.
Qed.

Lemma sort_by_strike_sorted (l : list option_entry) :
  Sorted strike_not_above (sort_by_strike l).
Proof.
  induction l as [|x l IH]; simpl; [constructor|].
  apply insert_by_strike_sorted, IH.
Qed.

Lemma expiring_expiration (date : string) (contracts : list Contract) :
  Forall (fun entry => op_expiration entry = date) (expiring date contracts).
Proof.
  unfold expiring. apply Forall_forall. intros entry H.
  apply in_map_iff in H as (c & <- & Hin).
  apply filter_In in Hin as [_ Hc]. now apply String.eqb_eq in Hc.
Qed.

(** What the handler does with a response that has contracts. *)
Lemma all_options_run (api : Api) (symbol : string) (s : State api) (url : string)
    (response : contracts_response) (contracts : list Contract)
    (sym : string) (o : groups) :
  snd (get_api_options_all api symbol s) = [FetchContracts url (inr response)] ->
  resp_data response = Some (DataWith contracts) ->
  fst (fst (get_api_options_all api symbol s)) = AllGrouped sym o ->
  sym = toUpperCase symbol
  /\ exists grouped, group_all [] contracts = inr grouped /\ o = sort_groups grouped.
Proof.
  unfold get_api_options_all, all_options_body, and_then, request, of_answer,
    unit_, raise.
  destruct (fetch_contracts api _ s) as [[e | fetched] s'];
    cbn [fst snd app]; [discriminate|].
  destruct (negb (resp_ok fetched)) eqn:Hnot;
    cbn [fst snd app]; [intros _ _ H; discriminate H|].
  destruct (option_contracts_of fetched) as [e | [[|c cs]|]] eqn:Hoc;
    cbn [fst snd app]; try (intros _ _ H; discriminate H).
  destruct (group_all [] (c :: cs)) as [e | grouped] eqn:Hg;
    cbn [fst snd app]; [intros _ _ H; discriminate H|].
  intros Hlog Hdata Hreply.
  assert (fetched = response) as -> by congruence.
  unfold option_contracts_of in Hoc. rewrite Hdata in Hoc.
  injection Hoc as Hc. subst contracts.
  injection Hreply as <- <-. split; [reflexivity|].
  exists grouped. now split.
Qed.

(** X12.  Under each date the reply holds the entries of exactly the contracts
    that expire on that date, sorted by strike with contracts of one strike
    in the order they came in; a date no contract has is no key. *)
Theorem all_options_grouped_by_expiration (api : Api) (symbol : string)
    (s : State api) (url : string) (response : contracts_response)
    (contracts : list Contract) (sym : string) (o : groups) :
  snd (get_api_options_all api symbol s) = [FetchContracts url (inr response)] ->
  resp_data response = Some (DataWith contracts) ->
  fst (fst (get_api_options_all api symbol s)) = AllGrouped sym o ->
  forall date,
    lookup date o
    = match expiring date contracts with
      | [] => None
      | entries => Some (sort_by_strike entries)
      end.
Proof.
  intros Hlog Hdata Hreply date.
  destruct (all_options_run api symbol s url response contracts sym o Hlog Hdata Hreply)
    as (_ & grouped & Hg & ->).
  rewrite lookup_sort_groups, (group_all_lookup contracts [] grouped Hg date).
  simpl. now destruct (expiring date contracts).
Qed.

(** X13.  Every array of the reply is in ascending order of strike, is not
    empty, holds only entries of its own date, and is a rearrangement of the
    entries of the contracts with that date: none is lost and none is
    doubled. *)
Theorem all_options_groups_sorted_and_complete (api : Api) (symbol : string)
    (s : State api) (url : string) (response : contracts_response)
    (contracts : list Contract) (sym : string) (o : groups) :
  snd (get_api_options_all api symbol s) = [FetchContracts url (inr response)] ->
  resp_data response = Some (DataWith contracts) ->
  fst (fst (get_api_options_all api symbol s)) = AllGrouped sym o ->
  forall date entries,
    lookup date o = Some entries ->
    Sorted strike_not_above entries
    /\ entries <> []
    /\ Forall (fun entry => op_expiration entry = date) entries
    /\ Permutation entries (expiring date contracts).
Proof.
  intros Hlog Hdata Hreply date entries Hfound.
  destruct (all_options_run api symbol s url response contracts sym o Hlog Hdata Hreply)
    as (_ & grouped & Hg & ->).
  rewrite lookup_sort_groups, (group_all_lookup contracts [] grouped Hg date) in Hfound.
  cbn [lookup joined] in Hfound.
  destruct (expiring date contracts) as [|e l] eqn:He; [discriminate|].
  cbn [option_map] in Hfound. injection Hfound as Hentries.
  assert (Hperm : Permutation entries (e :: l))
    by (rewrite <- Hentries; apply (sort_by_strike_perm (e :: l))).
  assert (Hsorted : Sorted strike_not_above entries)
    by (rewrite <- Hentries; apply (sort_by_strike_sorted (e :: l))).
  clear Hentries. repeat split.
  - exact Hsorted.
  - intros ->. now apply Permutation_nil in Hperm.
  - eapply Permutation_Forall; [symmetry; exact Hperm|].
    rewrite <- He. apply expiring_expiration.
  - exact Hperm.
Qed.

(** A contract whose date is a property name that every object inherits
    makes the handler answer with its failure reply. *)
Lemma all_options_inherited_date (contracts : list Contract) (c : Contract) :
  In c contracts -> is_inherited (ct_expiration_date c) = true ->
  forall o, exists e, group_all o contracts = inl e.
Proof.
  induction contracts as [|c' contracts IH]; intros Hin Hc o; [destruct Hin|].
  simpl. destruct (group_one o c') as [e | o1] eqn:Hone; [now exists e|].
  destruct Hin as [-> | Hin]; [|apply IH; assumption].
  unfold group_one in Hone. rewrite Hc in Hone. discriminate Hone.
Qed.

(* ===================================================================== *)
(** ** Properties: more on [POST /api/options/orders]                     *)
(* ===================================================================== *)

Import Alpaca Submission.

Ltac explore_submission :=
  unfold_run; unfold json_of; repeat break_run; cbn [fst snd app].

Lemma fields_of_null (order : json) (e : exn) :
  fields_of (Some order) = inl e -> order = JNull.
Proof. destruct order; simpl; intros H; try discriminate H; reflexivity. Qed.

Lemma fields_of_some_not_null (order : json) (fields : order_fields) :
  fields_of (Some order) = inr fields -> is_null order = false.
Proof. destruct order; simpl; intros H; try discriminate H; reflexivity. Qed.

(** Rewrites the facts gathered about a run into the goal. *)
Ltac settle_run :=
  repeat match goal with
         | E : negb _ = true |- _ => apply negb_true_iff in E
         | E : negb _ = false |- _ => apply negb_false_iff in E
         | E : fields_of (Some ?j) = inl _ |- _ => apply fields_of_null in E; subst j
         | E : fields_of (Some _) = inr _ |- _ => apply fields_of_some_not_null in E
         end.

Section MoreRuns.

Variable B : Broker.


(** X15.  The reply is a success exactly when the last call of the run is a
    submission that the broker accepted. *)
Theorem success_is_an_accepted_last_call (tradingMode : value)
    (req : order_request) (w : World B) :
  success (reply_of B tradingMode req w)
  = last_accepted (calls_of B tradingMode req w).
Proof.
  unfold reply_of, calls_of, post_api_options_orders.
  destruct (required_fields req) as [[[[symbol side] quantity] price]|] eqn:Hreq.
  2:{ unfold place_order. rewrite Hreq. reflexivity. }
  destruct (place_order_run B tradingMode req w symbol side quantity price Hreq)
    as (a0 & a1 & w1 & ->).
  explore_submission; settle_run;
    unfold last_accepted; cbn [rev app accepted_call success is_null negb andb];
    repeat match goal with
           | E : _ = _ |- _ => rewrite E
           end;
    reflexivity.
Qed.

(** X16.  Nothing follows a submission that was accepted: such a call is the
    last one of its run, so an accepted order is never submitted again. *)
Theorem accepted_submission_ends_the_run (tradingMode : value)
    (req : order_request) (w : World B) (e : Event) :
  In e (calls_of B tradingMode req w) ->
  accepted_call e = true ->
  exists before_it, calls_of B tradingMode req w = (before_it ++ [e])%list.
Proof.
  unfold calls_of, post_api_options_orders.
  destruct (required_fields req) as [[[[symbol side] quantity] price]|] eqn:Hreq.
  2:{ unfold place_order. rewrite Hreq. intros []. }
  destruct (place_order_run B tradingMode req w symbol side quantity price Hreq)
    as (a0 & a1 & w1 & ->).
  explore_submission; settle_run; intros Hin Hacc; simpl in Hin;
    repeat (destruct Hin as [<- | Hin];
            [cbn [accepted_call is_null negb andb] in Hacc;
             try discriminate Hacc;
             repeat match goal with
                    | E : ok _ = _ |- _ => rewrite E in Hacc
                    | E : parsed _ = _ |- _ => rewrite E in Hacc
                    end;
             cbn [accepted_call is_null negb andb] in Hacc;
             try discriminate Hacc|]);
    try (destruct Hin);
    match goal with
    | |- exists pre, ?l = (pre ++ [_])%list => exists (removelast l); reflexivity
    end.
Qed.

(** X17.  All the submissions of one call carry one and the same order body: no
    attempt changes the symbol, the quantity, the side or the price. *)
Theorem every_submission_carries_the_same_body (tradingMode : value)
    (req : order_request) (w : World B) (body1 body2 : OrderData) :
  In body1 (submissions (calls_of B tradingMode req w)) ->
  In body2 (submissions (calls_of B tradingMode req w)) ->
  body1 = body2.
Proof.
  unfold calls_of, post_api_options_orders.
  destruct (required_fields req) as [[[[symbol side] quantity] price]|] eqn:Hreq.
  2:{ unfold place_order. rewrite Hreq. intros []. }
  destruct (place_order_run B tradingMode req w symbol side quantity price Hreq)
    as (a0 & a1 & w1 & ->).
  explore_submission; intros H1 H2; simpl in H1, H2;
    repeat (destruct H1 as [<- | H1]; [|]); try (destruct H1);
    repeat (destruct H2 as [<- | H2]; [|]); try (destruct H2);
    reflexivity.
Qed.

End MoreRuns.

(* ===================================================================== *)
(** ** Properties: [GET /api/options/chain/:symbol]                       *)
(* ===================================================================== *)

Import Chain.

(** The price lookups: one or two quote calls, and nothing thrown. *)
Lemma stock_price_attempts (api : Api) (tradingMode : value) (symbol : string)
    (s : State api) :
  exists quotes s',
    attempt (stock_price api getLiveMarketDataApi symbol)
      (fun error =>
         attempt (stock_price api (getAlpacaApi tradingMode) symbol)
           (fun paperError => unit_ tt)) s []
    = (inr tt, s', quotes)
    /\ forallb is_quote quotes = true
    /\ (1 <= length quotes <= 2)%nat.
Proof.
  unfold attempt, stock_price, and_then, request, of_answer, unit_, raise.
  destruct (getLatestQuote api getLiveMarketDataApi symbol s) as [[e | quote] s1];
    cbn [app].
  2: destruct (price_read quote) as [e | []];
       [|exists [GetLatestQuote getLiveMarketDataApi symbol (inr quote)], s1;
         repeat split; simpl; lia].
  all: destruct (getLatestQuote api (getAlpacaApi tradingMode) symbol s1)
         as [[e' | quote'] s2]; cbn [app];
       [|destruct (price_read quote') as [e' | []]];
       eexists; eexists; (split; [reflexivity|]); split; simpl; try reflexivity; lia.
Qed.

(** What a run of the route looks like. *)
Lemma chain_run (api : Api) (tradingMode : value) (symbol : string)
    (expiration : option string) (s : State api) :
  exists quotes a s' reply,
    get_api_options_chain api tradingMode symbol expiration s
    = (reply, s',
       (quotes ++ [FetchContracts (Expirations.contracts_url symbol "500") a])%list)
    /\ forallb is_quote quotes = true
    /\ (1 <= length quotes <= 2)%nat
    /\ ((exists options,
           reply = ChainOptions (toUpperCase symbol) expiration options /\ options <> [])
        \/ reply = ChainNoData (toUpperCase symbol) expiration)
    /\ (forall response contracts,
          a = inr response -> resp_ok response = true ->
          resp_data response = Some (DataWith contracts) ->
          options_of reply = map entry_of (filteredContracts expiration contracts)).
Proof.
  destruct (stock_price_attempts api tradingMode symbol s)
    as (quotes & s1 & Hprice & Hq & Hlen).
  unfold get_api_options_chain, chain_body.
  unfold and_then at 1. rewrite Hprice.
  unfold chain_contracts, attempt, and_then, request, of_answer, unit_, raise.
  destruct (fetch_contracts api _ s1) as [[e | response] s2].
  { exists quotes, (inl e), s2, (ChainNoData (toUpperCase symbol) expiration).
    repeat split; try assumption; try lia; [now right | discriminate]. }
  exists quotes, (inr response), s2.
  destruct (resp_ok response) eqn:Hok.
  2:{ eexists. split; [reflexivity|]. repeat split; try assumption; try lia;
        [now right | congruence]. }
  unfold Expirations.option_contracts_of.
  destruct (resp_data response) as [[| |[|c cs]]|] eqn:Hdata;
    try (eexists; split; [reflexivity|]; repeat split; try assumption; try lia;
         [now right | intros r l Hr _ Hd; injection Hr as <-; congruence]).
  - eexists. split; [reflexivity|]. repeat split; try assumption; try lia;
      [now right|].
    intros r l Hr _ Hd. injection Hr as <-. rewrite Hdata in Hd.
    injection Hd as <-. unfold filteredContracts.
    destruct expiration as [date|]; [destruct (truthy_string date)|]; reflexivity.
  - destruct (filteredContracts expiration (c :: cs)) as [|f fs] eqn:Hf;
      (eexists; split; [reflexivity|]); repeat split; try assumption; try lia.
    + now right.
    + intros r l Hr _ Hd. injection Hr as <-. rewrite Hdata in Hd.
      injection Hd as <-. now rewrite Hf.
    + left. eexists. split; [reflexivity | discriminate].
    + intros r l Hr _ Hd. injection Hr as <-. rewrite Hdata in Hd.
      injection Hd as <-. now rewrite Hf.
Qed.

(** The route of all expirations groups only what came with an ok
    status. *)
Lemma all_options_from_ok_response (api : Api) (symbol : string) (s : State api)
    (url : string) (response : contracts_response) (sym : string) (o : groups) :
  snd (get_api_options_all api symbol s) = [FetchContracts url (inr response)] ->
  fst (fst (get_api_options_all api symbol s)) = AllGrouped sym o ->
  resp_ok response = true.
Proof.
  unfold get_api_options_all, all_options_body, and_then, request, of_answer,
    unit_, raise.
  destruct (fetch_contracts api _ s) as [[e | fetched] s'];
    cbn [fst snd app]; [discriminate|].
  destruct (resp_ok fetched) eqn:Hok;
    cbn [negb fst snd app]; [|intros _ H; discriminate H].
  destruct (Expirations.option_contracts_of fetched) as [e | [[|c cs]|]];
    cbn [fst snd app]; try (intros _ H; discriminate H).
  destruct (group_all [] (c :: cs)) as [e | grouped];
    cbn [fst snd app]; [intros _ H; discriminate H|].
  intros Hlog _. congruence.
Qed.

(** X19.  The route never answers with its failure reply, whatever the broker
    does: it asks for a quote once, and once more when the first attempt
    gave no price, then for the contracts, and replies with options, not
    none, or with the reply for no data. *)
Theorem chain_never_fails (api : Api) (tradingMode : value) (symbol : string)
    (expiration : option string) (s : State api) :
  exists quotes a,
    snd (get_api_options_chain api tradingMode symbol expiration s)
    = (quotes ++ [FetchContracts (Expirations.contracts_url symbol "500") a])%list
    /\ forallb is_quote quotes = true
    /\ (1 <= length quotes <= 2)%nat
    /\ ((exists options,
           fst (fst (get_api_options_chain api tradingMode symbol expiration s))
           = ChainOptions (toUpperCase symbol) expiration options
           /\ options <> [])
        \/ fst (fst (get_api_options_chain api tradingMode symbol expiration s))
           = ChainNoData (toUpperCase symbol) expiration).
Proof.
  destruct (chain_run api tradingMode symbol expiration s)
    as (quotes & a & s' & reply & -> & Hq & Hlen & Hreply & _).
  exists quotes, a. repeat split; try assumption; lia.
Qed.

(** X20.  When the broker lists contracts, the options of the reply are the
    entries of the contracts with the expiration asked for, or of all of
    them when none was asked for, in the order of the broker. *)
Theorem chain_lists_the_contracts_of_the_expiration (api : Api) (tradingMode : value)
    (symbol : string) (expiration : option string) (s : State api)
    (quotes : list Call) (url : string) (response : contracts_response)
    (contracts : list Contract) :
  snd (get_api_options_chain api tradingMode symbol expiration s)
  = (quotes ++ [FetchContracts url (inr response)])%list ->
  resp_ok response = true ->
  resp_data response = Some (DataWith contracts) ->
  options_of (fst (fst (get_api_options_chain api tradingMode symbol expiration s)))
  = map entry_of (filteredContracts expiration contracts).
Proof.
  destruct (chain_run api tradingMode symbol expiration s)
    as (quotes' & a & s' & reply & -> & _ & _ & _ & Hoptions).
  cbn [fst snd]. intros Hlog Hok Hdata.
  apply app_inj_tail in Hlog. destruct Hlog as [_ Hlast].
  injection Hlast as _ Ha. now apply (Hoptions response contracts).
Qed.

(** X21.  The chain of one expiration and the route of all expirations agree:
    from the same contracts, what the second holds under a date is the
    options of the first for that date, sorted by strike, and the date is no
    key there exactly when the chain has no data. *)
Theorem chain_agrees_with_all_options (api : Api) (tradingMode : value)
    (symbol date : string) (s1 s2 : State api)
    (quotes : list Call) (url1 url2 : string) (response : contracts_response)
    (contracts : list Contract) (sym : string) (o : groups) :
  date <> "" ->
  snd (get_api_options_chain api tradingMode symbol (Some date) s1)
  = (quotes ++ [FetchContracts url1 (inr response)])%list ->
  snd (get_api_options_all api symbol s2) = [FetchContracts url2 (inr response)] ->
  resp_data response = Some (DataWith contracts) ->
  fst (fst (get_api_options_all api symbol s2)) = AllGrouped sym o ->
  lookup date o
  = match options_of
            (fst (fst (get_api_options_chain api tradingMode symbol (Some date) s1))) with
    | [] => None
    | options => Some (sort_by_strike options)
    end.
Proof.
  intros Hdate Hchain Hlog Hdata Hreply.
  assert (Hok : resp_ok response = true)
    by exact (all_options_from_ok_response api symbol s2 url2 response sym o Hlog Hreply).
  destruct (chain_run api tradingMode symbol (Some date) s1)
    as (quotes' & a & s' & reply & Hrun & _ & _ & _ & Hoptions).
  rewrite Hrun in Hchain |- *. cbn [fst snd] in Hchain |- *.
  apply app_inj_tail in Hchain. destruct Hchain as [_ Hlast].
  injection Hlast as _ Ha.
  rewrite (Hoptions response contracts Ha Hok Hdata).
  destruct (all_options_run api symbol s2 url2 response contracts sym o Hlog Hdata Hreply)
    as (_ & grouped & Hg & ->).
  rewrite lookup_sort_groups, (group_all_lookup contracts [] grouped Hg date).
  unfold filteredContracts.
  assert (Ht : truthy_string date = true).
  { unfold truthy_string. apply String.eqb_neq in Hdate. now rewrite Hdate. }
  rewrite Ht. fold (expiring date contracts).
  simpl. now destruct (expiring date contracts).
Qed.

(* ===================================================================== *)
(** ** The properties of the other routes on the scripted brokers         *)
(* ===================================================================== *)

Import Samples.

Lemma stock_order_refused_before_any_call_witness :
  isOptionsSymbol "MSTR250725P00150000" = true
  /\ exists reply,
       post_api_orders broker (one_contract "buy") all_well = (reply, all_well, [])
       /\ is_400 reply = true.
Proof.
  split.
  - reflexivity.
  - apply (stock_order_refused_before_any_call broker (one_contract "buy") all_well).
    right; left. exists "MSTR250725P00150000". split; reflexivity.
Defined.

Lemma symbol_not_in_upper_case_passes_option_gate_witness :
  toUpperCase "mstr250725p00150000" = "MSTR250725P00150000"
  /\ isOptionsSymbol "mstr250725p00150000" = false
  /\ exists a,
       snd (post_api_orders broker buy_put_lower_case all_well)
       = [CreateOrder
            (stock_orderData "mstr250725p00150000" (SStr "1") (SStr "1.44") "limit" "buy") a]
       /\ od_symbol
            (stock_orderData "mstr250725p00150000" (SStr "1") (SStr "1.44") "limit" "buy")
          = "MSTR250725P00150000".
Proof.
  split; [reflexivity|].
  apply (symbol_not_in_upper_case_passes_option_gate broker buy_put_lower_case all_well
           "mstr250725p00150000" "buy" (SStr "1") (SStr "1.44") eq_refl).
  - discriminate.
  - left; reflexivity.
Defined.

Lemma option_symbol_position_without_call_witness :
  isOptionsSymbol "MSTR250725P00150000" = true
  /\ get_api_positions api (Some "MSTR250725P00150000") script
     = (OptionsHandledSeparately, script, []).
Proof.
  split.
  - reflexivity.
  - apply (option_symbol_position_without_call api "MSTR250725P00150000" script).
    reflexivity.
Defined.

Lemma position_query_always_succeeds_witness :
  isOptionsSymbol "AAPL" = false
  /\ exists a s' position,
       getPosition api "AAPL" script = (a, s')
       /\ get_api_positions api (Some "AAPL") script
          = (OnePosition position, s', [GetPosition "AAPL" a])
       /\ (position = None <-> (exists e, a = inl e) \/ a = inr JNull).
Proof.
  split.
  - reflexivity.
  - apply (position_query_always_succeeds api "AAPL" script).
    + discriminate.
    + reflexivity.
Defined.

Lemma three_orders_not_null : Forall (fun order => order <> JNull) three_orders.
Proof. repeat constructor; discriminate. Defined.

Lemma cancel_all_tries_every_order_witness :
  snd (delete_api_orders api script)
  = GetOrders open_orders (inr three_orders)
    :: [CancelOrder (Some (JStr "o1")) (inr tt);
        CancelOrder (Some (JStr "o2")) (cancel (Some (JStr "o2")) script);
        CancelOrder (Some (JStr "o3")) (inr tt)]
  /\ length [CancelOrder (Some (JStr "o1")) (inr tt);
             CancelOrder (Some (JStr "o2")) (cancel (Some (JStr "o2")) script);
             CancelOrder (Some (JStr "o3")) (inr tt)] = length three_orders
  /\ map fst (cancel_calls
                [CancelOrder (Some (JStr "o1")) (inr tt);
                 CancelOrder (Some (JStr "o2")) (cancel (Some (JStr "o2")) script);
                 CancelOrder (Some (JStr "o3")) (inr tt)])
     = map id_of three_orders.
Proof.
  split.
  - reflexivity.
  - apply (cancel_all_tries_every_order api script three_orders _ eq_refl
             three_orders_not_null).
Defined.

Lemma cancel_all_reports_each_order_witness :
  snd (delete_api_orders api script)
  = GetOrders open_orders (inr three_orders)
    :: [CancelOrder (Some (JStr "o1")) (inr tt);
        CancelOrder (Some (JStr "o2")) (cancel (Some (JStr "o2")) script);
        CancelOrder (Some (JStr "o3")) (inr tt)]
  /\ exists count results,
       fst (fst (delete_api_orders api script)) = CancelledOrders count results
       /\ map cr_id results = map id_of three_orders
       /\ map cr_status results = ["cancelled"; "failed_to_cancel"; "cancelled"]
       /\ count = 2%nat
       /\ (count <= length three_orders)%nat.
Proof.
  split.
  - reflexivity.
  - exact (cancel_all_reports_each_order api script three_orders _ eq_refl
             three_orders_not_null).
Defined.

Lemma expirations_sorted_without_repeats_witness :
  fst (fst (get_api_options_expirations api "mstr" script))
  = ExpirationsOf "MSTR" ["2025-07-18"; "2025-07-25"]
  /\ "MSTR" = toUpperCase "mstr"
  /\ Sorted before ["2025-07-18"; "2025-07-25"]
  /\ NoDup ["2025-07-18"; "2025-07-25"].
Proof.
  split.
  - reflexivity.
  - apply (expirations_sorted_without_repeats api "mstr" script
             "MSTR" ["2025-07-18"; "2025-07-25"] eq_refl).
Defined.

Lemma expirations_are_those_of_the_contracts_witness :
  snd (get_api_options_expirations api "mstr" script)
  = [FetchContracts (contracts_url "mstr" "100") (inr mstr_response)]
  /\ resp_ok mstr_response = true
  /\ exists dates,
       fst (fst (get_api_options_expirations api "mstr" script))
       = ExpirationsOf (toUpperCase "mstr") dates
       /\ (In "2025-07-18" dates
           <-> exists c, In c mstr_contracts /\ ct_expiration_date c = "2025-07-18").
Proof.
  split; [reflexivity|]. split; [reflexivity|].
  destruct (expirations_are_those_of_the_contracts api "mstr" script
              (contracts_url "mstr" "100") mstr_response mstr_contracts
              eq_refl eq_refl eq_refl) as (dates & Hreply & Hdates).
  exists dates. split; [exact Hreply | exact (Hdates "2025-07-18")].
Defined.

Lemma all_options_grouped_by_expiration_witness :
  snd (get_api_options_all api "mstr" script)
  = [FetchContracts (contracts_url "mstr" "1000") (inr mstr_response)]
  /\ fst (fst (get_api_options_all api "mstr" script)) = AllGrouped "MSTR" mstr_groups
  /\ lookup "2025-07-25" mstr_groups
     = Some (sort_by_strike [entry_of put_150; entry_of call_145])
  /\ lookup "2025-08-01" mstr_groups = None.
Proof.
  split; [reflexivity|]. split; [reflexivity|]. split.
  - exact (all_options_grouped_by_expiration api "mstr" script
             (contracts_url "mstr" "1000") mstr_response mstr_contracts "MSTR" mstr_groups
             eq_refl eq_refl eq_refl "2025-07-25").
  - reflexivity.
Defined.

Lemma all_options_groups_sorted_and_complete_witness :
  lookup "2025-07-25" mstr_groups = Some [entry_of call_145; entry_of put_150]
  /\ Sorted strike_not_above [entry_of call_145; entry_of put_150]
  /\ [entry_of call_145; entry_of put_150] <> []
  /\ Forall (fun entry => op_expiration entry = "2025-07-25")
       [entry_of call_145; entry_of put_150]
  /\ Permutation [entry_of call_145; entry_of put_150]
       [entry_of put_150; entry_of call_145].
Proof.
  split.
  - reflexivity.
  - exact (all_options_groups_sorted_and_complete api "mstr" script
             (contracts_url "mstr" "1000") mstr_response mstr_contracts "MSTR" mstr_groups
             eq_refl eq_refl eq_refl "2025-07-25" _ eq_refl).
Defined.

Lemma accepted_submission_ends_the_run_witness :
  accepted_call (CreateOrder (body_of "sell_to_close") (inr (Scripted.accepted "904837e3")))
  = true
  /\ exists before_it,
       calls_of broker Scripted.paper (one_contract "sell") all_well
       = (before_it
          ++ [CreateOrder (body_of "sell_to_close")
                (inr (Scripted.accepted "904837e3"))])%list.
Proof.
  split.
  - reflexivity.
  - apply (accepted_submission_ends_the_run broker Scripted.paper (one_contract "sell")
             all_well).
    + right; right; left; reflexivity.
    + reflexivity.
Defined.

Lemma every_submission_carries_the_same_body_witness :
  submissions (calls_of broker Scripted.paper (one_contract "buy") wash_trade_throughout)
  = [body_of "buy_to_open"; body_of "buy_to_open";
     retryOrderData_of (body_of "buy_to_open")]
  /\ body_of "buy_to_open" = retryOrderData_of (body_of "buy_to_open").
Proof.
  split.
  - reflexivity.
  - apply (every_submission_carries_the_same_body broker Scripted.paper
             (one_contract "buy") wash_trade_throughout).
    + left; reflexivity.
    + right; right; left; reflexivity.
Defined.

Lemma chain_lists_the_contracts_of_the_expiration_witness :
  snd (get_api_options_chain api Scripted.paper "mstr" (Some "2025-07-25") script)
  = ([GetLatestQuote getLiveMarketDataApi "mstr" (quote script);
      GetLatestQuote (getAlpacaApi Scripted.paper) "mstr" (quote script)]
     ++ [FetchContracts (contracts_url "mstr" "500") (inr mstr_response)])%list
  /\ resp_ok mstr_response = true
  /\ options_of
       (fst (fst (get_api_options_chain api Scripted.paper "mstr" (Some "2025-07-25")
                    script)))
     = [entry_of put_150; entry_of call_145].
Proof.
  split; [reflexivity|]. split; [reflexivity|].
  exact (chain_lists_the_contracts_of_the_expiration api Scripted.paper "mstr"
           (Some "2025-07-25") script _ _ mstr_response mstr_contracts
           eq_refl eq_refl eq_refl).
Defined.

Lemma chain_agrees_with_all_options_witness :
  fst (fst (get_api_options_all api "mstr" script)) = AllGrouped "MSTR" mstr_groups
  /\ options_of
       (fst (fst (get_api_options_chain api Scripted.paper "mstr" (Some "2025-07-25")
                    script)))
     = [entry_of put_150; entry_of call_145]
  /\ lookup "2025-07-25" mstr_groups
     = Some (sort_by_strike [entry_of put_150; entry_of call_145]).
Proof.
  split; [reflexivity|]. split; [reflexivity|].
  apply (chain_agrees_with_all_options api Scripted.paper "mstr" "2025-07-25"
           script script
           [GetLatestQuote getLiveMarketDataApi "mstr" (quote script);
            GetLatestQuote (getAlpacaApi Scripted.paper) "mstr" (quote script)]
           (contracts_url "mstr" "500") (contracts_url "mstr" "1000")
           mstr_response mstr_contracts "MSTR" mstr_groups);
    [discriminate | reflexivity ..].
Defined.

(* ===================================================================== *)
(** ** Properties: the order routes on a body of any JSON                 *)
(* ===================================================================== *)

Import Body.













